(** * aws-cost-saver: the Fargate ECS trick and the trick registry

    A shallow embedding of [StopFargateEcsServicesTrick]
    (stop-fargate-ecs-services.trick.ts), of [TrickInterface]
    (interfaces/trick.interface.ts) and of [TrickRegistry]
    (the tricks registry), followed by the properties of the conserve /
    restore lifecycle that the design document states about them.

    Async functions are values of a small monad [Async]: a computation reads
    the provider's answers from an environment, appends what it did to a
    trace and ends in a value or in a rejection. *)

From Stdlib Require Import List String Ascii ZArith Bool Lia DecimalString.
From ExtLib Require Import Structures.Monad.
Import ListNotations MonadNotation.
Local Open Scope string_scope.
Local Open Scope Z_scope.
Local Open Scope monad_scope.
Local Open Scope list_scope.

(* ===================================================================== *)
(** ** JavaScript helpers used by the source *)
(* ===================================================================== *)

Module Js.

(** [s.split(sep)] for a one-character separator: never returns an empty
    array ([''.split('/')] is [['']]). *)
Fixpoint split (sep : ascii) (s : string) : list string :=
  match s with
  | EmptyString => [EmptyString]
  | String c rest =>
      if Ascii.eqb c sep then EmptyString :: split sep rest
      else match split sep rest with
           | [] => [String c EmptyString]
           | seg :: segs => String c seg :: segs
           end
  end.

(** The value returned by [array.pop()]: the last element, [undefined]
    (here [None]) on an empty array. *)
Fixpoint pop {A : Type} (l : list A) : option A :=
  match l with
  | [] => None
  | [x] => Some x
  | _ :: r => pop r
  end.

(** A possibly-undefined string inside a template literal. *)
Definition interpolate (o : option string) : string :=
  match o with
  | Some s => s
  | None => "undefined"
  end.

(** A number inside a template literal; counts are integers, printed in
    decimal. *)
Definition number_to_string (z : Z) : string :=
  NilZero.string_of_int (Z.to_int z).

(** An optional string where a truthiness check has ruled [undefined]
    out. *)
Definition narrowed (o : option string) : string :=
  match o with
  | Some s => s
  | None => ""
  end.

(** [x || []] *)
Definition or_empty {A : Type} (o : option (list A)) : list A :=
  match o with
  | Some l => l
  | None => []
  end.

(** [!s] for an optional string: [undefined] and [''] are falsy. *)
Definition falsy (o : option string) : bool :=
  match o with
  | None => true
  | Some s => String.eqb s ""
  end.

(** [_.chunk(array, size)] of lodash: groups of [size] elements, the last
    group holding what remains; the empty array for [size < 1]. *)
Fixpoint chunk_fuel {A : Type} (fuel size : nat) (l : list A) : list (list A) :=
  match fuel with
  | O => []
  | S fuel' =>
      match l with
      | [] => []
      | _ :: _ => firstn size l :: chunk_fuel fuel' size (skipn size l)
      end
  end.

Definition chunk {A : Type} (l : list A) (size : nat) : list (list A) :=
  match size with
  | O => []
  | S _ => chunk_fuel (List.length l) size l
  end.

End Js.

(* ===================================================================== *)
(** ** The provider boundary (aws-sdk v2 clients) *)
(* ===================================================================== *)

Module Aws.

(** The fields of [AWS.ECS.Service] the trick reads; each is optional in
    the SDK's type. *)
Record Service : Type := {
  serviceArn : option string;
  desiredCount : option Z;
  clusterArn : option string
}.

(** The fields of [AWS.ApplicationAutoScaling.ScalableTarget] the trick
    reads. *)
Record ScalableTarget : Type := {
  ResourceId : string;
  ScalableDimension : string;
  MinCapacity : Z;
  MaxCapacity : Z
}.

(** One operation of [AWS.ECS] or [AWS.ApplicationAutoScaling] with the
    parameters the trick passes. *)
Inductive Call : Type :=
| ListClusters
| ListServices (cluster launchType : string)
| DescribeServices (services : list string) (cluster : string)
| DescribeScalableTargets (ServiceNamespace : string)
    (ResourceIds : list string) (ScalableDimension : string)
| UpdateService (cluster service : string) (desiredCount : Z)
| WaitFor (state cluster : string) (services : list string)
| RegisterScalableTarget (ServiceNamespace ResourceId ScalableDimension : string)
    (MinCapacity MaxCapacity : Z).

(** What the code reads of a successful response. *)
Definition reply (c : Call) : Type :=
  match c with
  | ListClusters => option (list string)
  | ListServices _ _ => option (list string)
  | DescribeServices _ _ => option (list Service)
  | DescribeScalableTargets _ _ _ => option (list ScalableTarget)
  | UpdateService _ _ _ => unit
  | WaitFor _ _ _ => unit
  | RegisterScalableTarget _ _ _ _ _ => unit
  end.

(** The calls that change the account: update of a service's desired
    count and registration of a scalable target. *)
Definition is_mutating (c : Call) : bool :=
  match c with
  | UpdateService _ _ _ => true
  | RegisterScalableTarget _ _ _ _ _ => true
  | _ => false
  end.

(** The calls that enumerate or describe resources. *)
Definition is_discovery (c : Call) : bool :=
  match c with
  | ListClusters => true
  | ListServices _ _ => true
  | DescribeServices _ _ => true
  | DescribeScalableTargets _ _ _ => true
  | _ => false
  end.

Definition is_wait (c : Call) : bool :=
  match c with
  | WaitFor _ _ _ => true
  | _ => false
  end.

Inductive Error : Type :=
| JsError (message : string)   (* throw new Error(message) *)
| AwsError (code : string).    (* the provider rejected the request *)

Inductive Result (A : Type) : Type :=
| Ok (a : A)
| Rejected (e : Error).
Arguments Ok {A} a.
Arguments Rejected {A} e.

Definition is_ok {A : Type} (r : Result A) : bool :=
  match r with
  | Ok _ => true
  | Rejected _ => false
  end.

(** How the provider answers each request during one run. *)
Definition Env : Type := forall c : Call, Result (reply c).

(** The provider accepts every mutating request. *)
Definition accepts_mutations (env : Env) : Prop :=
  forall c, is_mutating c = true -> is_ok (env c) = true.

End Aws.
Import Aws.

(* ===================================================================== *)
(** ** Async computations and their traces *)
(* ===================================================================== *)

Module Async.

(** What a computation does that can be observed from outside.

    An aws-sdk v2 client method called without a callback only builds an
    [AWS.Request]; the request is dispatched by [.promise()] (or
    [.send()]).  [Request c] is [client.op(params).promise()]: dispatched,
    and awaited.  [Unsent c] is [await client.op(params)]: the request
    object is not a thenable, so [await] continues at once with the object
    itself and nothing is dispatched. *)
Inductive Event : Type :=
| Output (text : string)    (* task.output = text *)
| Skip (text : string)      (* task.skip(text) *)
| Request (c : Call)
| Unsent (c : Call).

(** [Par] holds the traces of the promises given to one [Promise.all]:
    they run interleaved, each to its own end. *)
#[warnings="-register-all"] Inductive Step : Type :=
| Ev (e : Event)
| Par (branches : list (list Step)).

Definition Trace : Type := list Step.

Definition t (A : Type) : Type := Env -> Trace * Result A.

Definition pure {A : Type} (a : A) : t A := fun _ => ([], Ok a).

Definition then_ {A B : Type} (m : t A) (f : A -> t B) : t B :=
  fun env =>
    match m env with
    | (tr, Ok a) => let (tr', r) := f a env in (tr ++ tr', r)
    | (tr, Rejected e) => (tr, Rejected e)
    end.

#[export] Instance Monad_Async : Monad t :=
  {| ret := @pure; bind := @then_ |}.

(** [throw new Error(message)] *)
Definition throw {A : Type} (message : string) : t A :=
  fun _ => ([], Rejected (JsError message)).

(** [await client.op(params).promise()] *)
Definition request (c : Call) : t (reply c) :=
  fun env => ([Ev (Request c)], env c).

(** [await client.op(params)] *)
Definition unsent (c : Call) : t unit :=
  fun _ => ([Ev (Unsent c)], Ok tt).

Definition output (text : string) : t unit :=
  fun _ => ([Ev (Output text)], Ok tt).

Definition skip (text : string) : t unit :=
  fun _ => ([Ev (Skip text)], Ok tt).

(** The first rejection in list order, or all the values. *)
Fixpoint all_results {A : Type} (rs : list (Result A)) : Result (list A) :=
  match rs with
  | [] => Ok []
  | Ok a :: rest =>
      match all_results rest with
      | Ok l => Ok (a :: l)
      | Rejected e => Rejected e
      end
  | Rejected e :: _ => Rejected e
  end.

(** [await Promise.all(promises)].  Every promise runs to its end whether
    or not another one rejects; the result is rejected as soon as one is.
    When several reject, which error is reported depends on timing; the
    model reports the first in list order, and nothing below relies on
    which one it is. *)
Definition promise_all {A : Type} (promises : list (t A)) : t (list A) :=
  fun env =>
    let runs := map (fun p => p env) promises in
    ([Par (map fst runs)], all_results (map snd runs)).

(** [for (const x of xs) { await body(x) }] *)
Fixpoint for_of {A : Type} (xs : list A) (body : A -> t unit) : t unit :=
  match xs with
  | [] => ret tt
  | x :: rest => body x ;; for_of rest body
  end.

(** The events of a trace, branch after branch. *)
Fixpoint events_of_step (s : Step) : list Event :=
  match s with
  | Ev e => [e]
  | Par branches => flat_map (flat_map events_of_step) branches
  end.

Definition events (tr : Trace) : list Event := flat_map events_of_step tr.

(** The requests dispatched to the provider. *)
Definition dispatched (tr : Trace) : list Call :=
  flat_map (fun e => match e with Request c => [c] | _ => [] end) (events tr).

Definition mutations (tr : Trace) : list Call :=
  filter is_mutating (dispatched tr).

Definition skips (tr : Trace) : list string :=
  flat_map (fun e => match e with Skip s => [s] | _ => [] end) (events tr).

Definition trace {A : Type} (m : t A) (env : Env) : Trace := fst (m env).
Definition result {A : Type} (m : t A) (env : Env) : Result A := snd (m env).

End Async.
Import Async.

(* ===================================================================== *)
(** ** Captured state (states/ecs-service.state, states/ecs-cluster.state) *)
(* ===================================================================== *)

(** The two state declarations are imported by the trick; their fields are
    the ones the trick builds in [getCurrentState] and reads back. *)

Module ScalableTargetState.
Record t : Type := {
  namespace : string;
  resourceId : string;
  scalableDimension : string;
  min : Z;
  max : Z
}.
End ScalableTargetState.

Module EcsServiceState.
(** [scalableTargets] may be missing from a state that was read back
    (the code tests [!serviceState.scalableTargets]). *)
Record t : Type := {
  arn : string;
  desired : Z;
  scalableTargets : option (list ScalableTargetState.t)
}.
End EcsServiceState.

Module EcsClusterState.
Record t : Type := {
  arn : string;
  services : list EcsServiceState.t
}.
End EcsClusterState.

(** [StopFargateEcsServicesState = EcsClusterState[]] *)
Definition StopFargateEcsServicesState : Type := list EcsClusterState.t.

(* ===================================================================== *)
(** ** The task tree handed to the trick (listr) *)
(* ===================================================================== *)

Module Listr.

(** [chalk.blueBright(s)] or a plain string; how chalk renders the colour
    is left to the terminal. *)
Inductive Title : Type :=
| Plain (s : string)
| BlueBright (s : string).

Record Options : Type := {
  exitOnError : bool;
  concurrent : bool;
  collapse : bool
}.

(** [{ title, task: (ctx, task) => promise }]: the events of the
    computation are those of this task's own wrapper. *)
Record Leaf : Type := {
  leaf_title : Title;
  leaf_task : Async.t unit
}.

(** [{ title, task: () => new Listr(leaves, options) }] *)
Record Task : Type := {
  title : Title;
  subtasks : list Leaf;
  options : Options
}.

Definition t : Type := list Task.

(** [listr.add(task)] *)
Definition add (listr : t) (task : Task) : t := listr ++ [task].

Definition leaves (listr : t) : list Leaf := flat_map subtasks listr.

End Listr.

(* ===================================================================== *)
(** ** interfaces/trick.interface.ts *)
(* ===================================================================== *)

(** Modelled from the spec: [TagInterface] is declared in
    interfaces/tag.interface.ts, which is not among the sources; the design
    document describes a tag as a key/value selection criterion. *)
Record TagInterface : Type := {
  tag_key : string;
  tag_value : string
}.

(** [TrickInterface<StateType>] together with its state type, as the
    registry stores it ([TrickInterface<any>]). *)
Module TrickInterface.
Record t : Type := {
  StateType : Type;
  getMachineName : string;
  getDisplayName : string;
  canBeConcurrent : bool;
  conserve : Listr.t -> bool -> list TagInterface -> Async.t (StateType * Listr.t);
  restore : Listr.t -> bool -> StateType -> Async.t Listr.t
}.
End TrickInterface.

(* ===================================================================== *)
(** ** StopFargateEcsServicesTrick *)
(* ===================================================================== *)

Module StopFargateEcsServicesTrick.

Definition machineName : string := "stop-fargate-ecs-services".

Definition getMachineName : string := machineName.

Definition getDisplayName : string := "Stop Fargate ECS Services".

Definition canBeConcurrent : bool := true.

Definition getEcsServiceResourceId (clusterArn serviceArn : string) : string :=
  let clusterName := Js.pop (Js.split "/" clusterArn) in
  let serviceName := Js.pop (Js.split "/" serviceArn) in
  ("service/" ++ Js.interpolate clusterName ++ "/" ++ Js.interpolate serviceName)%string.

Definition listServices (clusterArn : string) : Async.t (list string) :=
  response <- request (ListServices clusterArn "FARGATE") ;;
  ret (Js.or_empty response).

Definition listClusters : Async.t (list string) :=
  response <- request ListClusters ;;
  ret (Js.or_empty response).

(** The [for (const services of chunks)] loop of [describeAllServices],
    with [result] passed along. *)
Fixpoint describeChunks (clusterArn : string) (chunks : list (list string))
    (result : list Service) : Async.t (list Service) :=
  match chunks with
  | [] => ret result
  | services :: rest =>
      response <- request (DescribeServices services clusterArn) ;;
      describeChunks clusterArn rest (result ++ Js.or_empty response)
  end.

Definition describeAllServices (clusterArn : string) : Async.t (list Service) :=
  servicesArn <- listServices clusterArn ;;
  let chunks := Js.chunk servicesArn 10 in
  describeChunks clusterArn chunks [].

Definition describeAllScalableTargets (service : Service)
    : Async.t (list ScalableTarget) :=
  if Js.falsy (clusterArn service) then
    throw "Unexpected missing clusterArn for ECS service: [object Object]"
  else if Js.falsy (serviceArn service) then
    throw "Unexpected missing serviceArn for ECS service: [object Object]"
  else
    result <- request (DescribeScalableTargets "ecs"
                [getEcsServiceResourceId (Js.narrowed (clusterArn service))
                                         (Js.narrowed (serviceArn service))]
                "ecs:service:DesiredCount") ;;
    ret (Js.or_empty result).

Definition toScalableTargetState (st : ScalableTarget) : ScalableTargetState.t :=
  {| ScalableTargetState.namespace := "ecs";
     ScalableTargetState.resourceId := ResourceId st;
     ScalableTargetState.scalableDimension := ScalableDimension st;
     ScalableTargetState.min := MinCapacity st;
     ScalableTargetState.max := MaxCapacity st |}.

(** The inner [async (service) => ...] of [getCurrentState]. *)
Definition getServiceState (service : Service) : Async.t EcsServiceState.t :=
  match serviceArn service with
  | None => throw "Unexpected error: serviceArn is missing for ECS service"
  | Some arn =>
      match desiredCount service with
      | None => throw "Unexpected error: desiredCount is missing for ECS service"
      | Some desired =>
          scalableTargets <- describeAllScalableTargets service ;;
          ret {| EcsServiceState.arn := arn;
                 EcsServiceState.desired := desired;
                 EcsServiceState.scalableTargets :=
                   Some (map toScalableTargetState scalableTargets) |}
      end
  end.

(** The outer [async (clusterArn) => ...] of [getCurrentState]. *)
Definition getClusterState (clusterArn : string) : Async.t EcsClusterState.t :=
  services <- describeAllServices clusterArn ;;
  serviceStates <- promise_all (map getServiceState services) ;;
  ret {| EcsClusterState.arn := clusterArn;
         EcsClusterState.services := serviceStates |}.

Definition getCurrentState (clustersArn : list string)
    : Async.t StopFargateEcsServicesState :=
  promise_all (map getClusterState clustersArn).

(** [!targets || targets.length === 0] *)
Definition noScalableTargets (targets : option (list ScalableTargetState.t)) : bool :=
  match targets with
  | None => true
  | Some l => Nat.eqb (List.length l) 0
  end.

Definition conserveService (dryRun : bool) (clusterState : EcsClusterState.t)
    (serviceState : EcsServiceState.t) : Async.t unit :=
  if dryRun then
    skip "Skipped due to dry-run"
  else if EcsServiceState.desired serviceState >? 0 then
    output "Updating desired count to zero..." ;;
    request (UpdateService (EcsClusterState.arn clusterState)
                           (EcsServiceState.arn serviceState) 0) ;;
    output "Waiting for service to scale down to zero..." ;;
    (* await this.ecsClient.waitFor(...): no callback, no .promise() *)
    unsent (WaitFor "servicesStable" (EcsClusterState.arn clusterState)
                    [EcsServiceState.arn serviceState]) ;;
    output "Set desired count to zero"
  else
    skip "Skipped, desired count is already zero".

Definition conserveScalableTargets (dryRun : bool) (clusterState : EcsClusterState.t)
    (serviceState : EcsServiceState.t) : Async.t unit :=
  if noScalableTargets (EcsServiceState.scalableTargets serviceState) then
    skip "No scalable targets defined"
  else if dryRun then
    skip "Skipped due to dry-run"
  else
    for_of (Js.or_empty (EcsServiceState.scalableTargets serviceState))
      (fun scalableTarget =>
         let resourceId :=
           getEcsServiceResourceId (EcsClusterState.arn clusterState)
                                   (EcsServiceState.arn serviceState) in
         request (RegisterScalableTarget
                    (ScalableTargetState.namespace scalableTarget)
                    resourceId
                    (ScalableTargetState.scalableDimension scalableTarget)
                    0 0)).

Definition restoreService (dryRun : bool) (clusterState : EcsClusterState.t)
    (serviceState : EcsServiceState.t) : Async.t unit :=
  let desired := EcsServiceState.desired serviceState in
  if dryRun then
    skip "Skipped due to dry-run"
  else if desired >? 0 then
    output ("Updating desired count to " ++ Js.number_to_string desired ++ "...")%string ;;
    request (UpdateService (EcsClusterState.arn clusterState)
                           (EcsServiceState.arn serviceState) desired) ;;
    output ("Waiting for service to reach " ++ Js.number_to_string desired
            ++ " desired tasks...")%string ;;
    (* await this.ecsClient.waitFor(...): no callback, no .promise() *)
    unsent (WaitFor "servicesStable" (EcsClusterState.arn clusterState)
                    [EcsServiceState.arn serviceState]) ;;
    output ("Restored desired count to " ++ Js.number_to_string desired)%string
  else
    skip "Skipped, desired count was previously zero".

Definition restoreScalableTargets (dryRun : bool) (clusterState : EcsClusterState.t)
    (serviceState : EcsServiceState.t) : Async.t unit :=
  if noScalableTargets (EcsServiceState.scalableTargets serviceState) then
    skip "No scalable targets defined"
  else
    for_of (Js.or_empty (EcsServiceState.scalableTargets serviceState))
      (fun scalableTarget =>
         let resourceId :=
           getEcsServiceResourceId (EcsClusterState.arn clusterState)
                                   (EcsServiceState.arn serviceState) in
         if dryRun then
           skip "Skipped due to dry-run"
         else
           request (RegisterScalableTarget
                      (ScalableTargetState.namespace scalableTarget)
                      resourceId
                      (ScalableTargetState.scalableDimension scalableTarget)
                      (ScalableTargetState.min scalableTarget)
                      (ScalableTargetState.max scalableTarget))).

(** The task added to [subListr] for one service by [conserve]. *)
Definition conserveTask (dryRun : bool) (cluster : EcsClusterState.t)
    (service : EcsServiceState.t) : Listr.Task :=
  {| Listr.title :=
       Listr.BlueBright (getEcsServiceResourceId (EcsClusterState.arn cluster)
                                                 (EcsServiceState.arn service));
     Listr.subtasks :=
       [ {| Listr.leaf_title := Listr.Plain "Desired count";
            Listr.leaf_task := conserveService dryRun cluster service |};
         {| Listr.leaf_title := Listr.Plain "Auto scaling";
            Listr.leaf_task := conserveScalableTargets dryRun cluster service |} ];
     Listr.options :=
       {| Listr.exitOnError := false;
          Listr.concurrent := true;
          Listr.collapse := false |} |}.

(** The task added to [subListr] for one service by [restore]. *)
Definition restoreTask (dryRun : bool) (cluster : EcsClusterState.t)
    (service : EcsServiceState.t) : Listr.Task :=
  {| Listr.title :=
       Listr.BlueBright (getEcsServiceResourceId (EcsClusterState.arn cluster)
                                                 (EcsServiceState.arn service));
     Listr.subtasks :=
       [ {| Listr.leaf_title := Listr.Plain "Desired count";
            Listr.leaf_task := restoreService dryRun cluster service |};
         {| Listr.leaf_title := Listr.Plain "Auto scaling";
            Listr.leaf_task := restoreScalableTargets dryRun cluster service |} ];
     Listr.options :=
       {| Listr.exitOnError := false;
          Listr.concurrent := true;
          Listr.collapse := true |} |}.

(** [for (const cluster of state) for (const service of cluster.services)
    subListr.add(mk(cluster, service))] *)
Definition addTasks (mk : EcsClusterState.t -> EcsServiceState.t -> Listr.Task)
    (state : StopFargateEcsServicesState) (subListr : Listr.t) : Listr.t :=
  fold_left
    (fun listr cluster =>
       fold_left (fun listr' service => Listr.add listr' (mk cluster service))
                 (EcsClusterState.services cluster) listr)
    state subListr.

(** [conserve(subListr, dryRun)]: the state it resolves to and [subListr]
    after the calls to [add]. *)
Definition conserve (subListr : Listr.t) (dryRun : bool)
    : Async.t (StopFargateEcsServicesState * Listr.t) :=
  clustersArn <- listClusters ;;
  currentState <- getCurrentState clustersArn ;;
  ret (currentState, addTasks (conserveTask dryRun) currentState subListr).

(** [restore(subListr, dryRun, originalState)]: [subListr] after the calls
    to [add]. *)
Definition restore (subListr : Listr.t) (dryRun : bool)
    (originalState : StopFargateEcsServicesState) : Async.t Listr.t :=
  ret (addTasks (restoreTask dryRun) originalState subListr).

(** The class seen through [TrickInterface]: a caller passes [tags] as
    third argument of [conserve]; the method declares two parameters, so
    the argument is dropped. *)
Definition trick : TrickInterface.t :=
  {| TrickInterface.StateType := StopFargateEcsServicesState;
     TrickInterface.getMachineName := getMachineName;
     TrickInterface.getDisplayName := getDisplayName;
     TrickInterface.canBeConcurrent := canBeConcurrent;
     TrickInterface.conserve := fun subListr dryRun _ => conserve subListr dryRun;
     TrickInterface.restore := restore |}.

End StopFargateEcsServicesTrick.

(* ===================================================================== *)
(** ** TrickRegistry *)
(* ===================================================================== *)

Module TrickRegistry.

Record t : Type := {
  registry : list TrickInterface.t
}.

(** [new TrickRegistry()] *)
Definition new : t := {| registry := [] |}.

(** [register(...trick)]: [this.registry.push(...trick)] *)
Definition register (r : t) (trick : list TrickInterface.t) : t :=
  {| registry := registry r ++ trick |}.

(** [all()] *)
Definition all (r : t) : list TrickInterface.t := registry r.

(** The registry after a sequence of [register] calls, oldest first. *)
Definition registerAll (r : t) (calls : list (list TrickInterface.t)) : t :=
  fold_left register calls r.

Definition machineNames (r : t) : list string :=
  map TrickInterface.getMachineName (all r).

Section Initialize.

(** The six other trick classes that [initialize] instantiates are not
    among the sources: an instance of each is a parameter. *)
Variables (stopRdsDatabaseInstances
           shutdownEC2Instances
           decreaseDynamoDBProvisionedRcuWcu
           removeNatGateways
           snapshotRemoveElasticacheRedis
           decreaseKinesisStreamsShards : TrickInterface.t).

Definition initialize : t :=
  let registry := new in
  register registry
    [ StopFargateEcsServicesTrick.trick;
      stopRdsDatabaseInstances;
      shutdownEC2Instances;
      decreaseDynamoDBProvisionedRcuWcu;
      removeNatGateways;
      snapshotRemoveElasticacheRedis;
      decreaseKinesisStreamsShards ].

End Initialize.

End TrickRegistry.

(* ===================================================================== *)
(** ** A sample account *)
(* ===================================================================== *)

Module Sample.

Definition clusterArn : string := "arn:aws:ecs:eu-west-1:123456789012:cluster/main".
Definition serviceArn : string := "arn:aws:ecs:eu-west-1:123456789012:service/main/web".
Definition dimension : string := "ecs:service:DesiredCount".

Definition target (lo hi : Z) : ScalableTarget :=
  {| ResourceId := "service/main/web";
     ScalableDimension := dimension;
     MinCapacity := lo;
     MaxCapacity := hi |}.

(** An account with one cluster holding the given services, each with the
    given scalable targets; every mutating request is accepted. *)
Definition account (services : list Service) (targets : list ScalableTarget) : Env :=
  fun c =>
    match c as c0 return Result (reply c0) with
    | ListClusters => Ok (Some [clusterArn])
    | ListServices _ _ => Ok (Some (map (fun s => Js.narrowed (Aws.serviceArn s)) services))
    | DescribeServices _ _ => Ok (Some services)
    | DescribeScalableTargets _ _ _ => Ok (Some targets)
    | UpdateService _ _ _ => Ok tt
    | WaitFor _ _ _ => Ok tt
    | RegisterScalableTarget _ _ _ _ _ => Ok tt
    end.

Definition web (desired : Z) : Service :=
  {| Aws.serviceArn := Some serviceArn;
     Aws.desiredCount := Some desired;
     Aws.clusterArn := Some clusterArn |}.

Definition capturedTarget (lo hi : Z) : ScalableTargetState.t :=
  {| ScalableTargetState.namespace := "ecs";
     ScalableTargetState.resourceId := "service/main/web";
     ScalableTargetState.scalableDimension := dimension;
     ScalableTargetState.min := lo;
     ScalableTargetState.max := hi |}.

Definition serviceState (desired : Z) (targets : list ScalableTargetState.t)
    : EcsServiceState.t :=
  {| EcsServiceState.arn := serviceArn;
     EcsServiceState.desired := desired;
     EcsServiceState.scalableTargets := Some targets |}.

Definition clusterState (services : list EcsServiceState.t) : EcsClusterState.t :=
  {| EcsClusterState.arn := clusterArn;
     EcsClusterState.services := services |}.

(** The mutating requests dispatched when every leaf of a task list is
    run against [env]. *)
Definition mutationsOf (env : Env) (listr : Listr.t) : list Call :=
  flat_map (fun leaf => mutations (trace (Listr.leaf_task leaf) env))
           (Listr.leaves listr).

(** An account that rejects every mutating request. *)
Definition readOnly (env : Env) : Env :=
  fun c =>
    match c as c0 return Result (reply c0) with
    | UpdateService _ _ _ => Rejected (AwsError "AccessDeniedException")
    | RegisterScalableTarget _ _ _ _ _ => Rejected (AwsError "AccessDeniedException")
    | c0 => env c0
    end.

End Sample.

(* ===================================================================== *)
(** ** Reasoning about traces *)
(* ===================================================================== *)

Module AsyncFacts.

Lemma events_app (tr1 tr2 : Trace) :
  events (tr1 ++ tr2) = events tr1 ++ events tr2.
Proof. unfold events. apply flat_map_app. Qed.

Lemma events_par (branches : list Trace) :
  events [Par branches] = flat_map events branches.
Proof. unfold events. simpl. apply app_nil_r. Qed.

Lemma dispatched_app (tr1 tr2 : Trace) :
  dispatched (tr1 ++ tr2) = dispatched tr1 ++ dispatched tr2.
Proof. unfold dispatched. rewrite events_app. apply flat_map_app. Qed.

Lemma mutations_app (tr1 tr2 : Trace) :
  mutations (tr1 ++ tr2) = mutations tr1 ++ mutations tr2.
Proof. unfold mutations. rewrite dispatched_app. apply filter_app. Qed.

Lemma skips_app (tr1 tr2 : Trace) :
  skips (tr1 ++ tr2) = skips tr1 ++ skips tr2.
Proof. unfold skips. rewrite events_app. apply flat_map_app. Qed.

(** [m] run to its end after [f]'s argument is known. *)
Lemma trace_bind {A B : Type} (m : Async.t A) (f : A -> Async.t B) (env : Env) :
  trace (bind m f) env =
  trace m env ++ match result m env with
                 | Ok a => trace (f a) env
                 | Rejected _ => []
                 end.
Proof.
  unfold trace, result. simpl. unfold then_.
  destruct (m env) as [tr [a | e]]; simpl.
  - destruct (f a env); reflexivity.
  - symmetry. apply app_nil_r.
Qed.

Lemma result_bind {A B : Type} (m : Async.t A) (f : A -> Async.t B) (env : Env) :
  result (bind m f) env =
  match result m env with
  | Ok a => result (f a) env
  | Rejected e => Rejected e
  end.
Proof.
  unfold result. simpl. unfold then_.
  destruct (m env) as [tr [a | e]]; simpl; [destruct (f a env)|]; reflexivity.
Qed.

(** Every event a computation records satisfies [P], whatever the
    provider answers. *)
Definition every {A : Type} (P : Event -> Prop) (m : Async.t A) : Prop :=
  forall env, Forall P (events (trace m env)).

Section Rules.
Context (P : Event -> Prop).

Lemma every_ret {A : Type} (a : A) : every P (ret a).
Proof. intros env. constructor. Qed.

Lemma every_throw {A : Type} (message : string) : every P (@throw A message).
Proof. intros env. constructor. Qed.

Lemma every_bind {A B : Type} (m : Async.t A) (f : A -> Async.t B) :
  every P m -> (forall a, every P (f a)) -> every P (bind m f).
Proof.
  intros Hm Hf env. rewrite trace_bind, events_app.
  apply Forall_app. split; [apply Hm|].
  destruct (result m env); [apply Hf | constructor].
Qed.

Lemma every_request (c : Call) : P (Request c) -> every P (request c).
Proof. intros H env. repeat constructor. exact H. Qed.

Lemma every_unsent (c : Call) : P (Unsent c) -> every P (unsent c).
Proof. intros H env. repeat constructor. exact H. Qed.

Lemma every_output (text : string) : P (Output text) -> every P (output text).
Proof. intros H env. repeat constructor. exact H. Qed.

Lemma every_skip (text : string) : P (Skip text) -> every P (skip text).
Proof. intros H env. repeat constructor. exact H. Qed.

Lemma every_for_of {A : Type} (xs : list A) (body : A -> Async.t unit) :
  (forall x, In x xs -> every P (body x)) -> every P (for_of xs body).
Proof.
  induction xs as [| x rest IH]; intros Hbody; simpl.
  - apply every_ret.
  - apply every_bind.
    + apply Hbody. now left.
    + intros _. apply IH. intros y Hy. apply Hbody. now right.
Qed.

Lemma every_promise_all {A : Type} (promises : list (Async.t A)) :
  (forall p, In p promises -> every P p) -> every P (promise_all promises).
Proof.
  intros Hall env. unfold trace, promise_all. cbn [fst].
  rewrite events_par, map_map.
  induction promises as [| p rest IH]; simpl.
  - constructor.
  - apply Forall_app. split.
    + apply (Hall p). now left.
    + apply IH. intros q Hq. apply Hall. now right.
Qed.

Lemma every_if {A : Type} (b : bool) (m1 m2 : Async.t A) :
  every P m1 -> every P m2 -> every P (if b then m1 else m2).
Proof. now destruct b. Qed.

End Rules.

(** A request that is dispatched is not a mutating one. *)
Definition read_only (e : Event) : Prop :=
  match e with
  | Request c => is_mutating c = false
  | _ => True
  end.

Lemma read_only_mutations {A : Type} (m : Async.t A) :
  every read_only m -> forall env, mutations (trace m env) = [].
Proof.
  intros H env. specialize (H env). unfold mutations, dispatched.
  induction (events (trace m env)) as [| e es IH]; [reflexivity|].
  inversion H as [| ? ? He Hes]; subst. simpl.
  rewrite filter_app, (IH Hes), app_nil_r.
  destruct e; simpl in *; try reflexivity. now rewrite He.
Qed.

(** [all_results] succeeds exactly when every promise does. *)
Lemma all_results_ok {A : Type} (rs : list (Result A)) (l : list A) :
  all_results rs = Ok l <-> rs = map Ok l.
Proof.
  revert l. induction rs as [| r rest IH]; intros l; simpl.
  - split.
    + intros H. injection H as <-. reflexivity.
    + destruct l; [reflexivity | discriminate].
  - destruct r as [a | e].
    + destruct (all_results rest) as [l' | e'] eqn:E.
      * split.
        -- intros H. injection H as <-. simpl. f_equal. now apply IH.
        -- destruct l as [| b l'']; [discriminate|]. simpl.
           intros H. injection H as -> H. apply IH in H.
           congruence.
      * split; [discriminate|].
        destruct l as [| b l'']; [discriminate|]. simpl.
        intros H. injection H as -> H. apply IH in H. discriminate.
    + split; [discriminate|]. destruct l; discriminate.
Qed.

Lemma all_results_rejected {A : Type} (rs : list (Result A)) :
  existsb (fun r => negb (is_ok r)) rs = true ->
  is_ok (all_results rs) = false.
Proof.
  induction rs as [| r rest IH]; simpl; [discriminate|].
  destruct r as [a | e]; simpl; [|reflexivity].
  intros H. specialize (IH H). now destruct (all_results rest).
Qed.

Lemma all_results_accepted {A : Type} (rs : list (Result A)) :
  forallb is_ok rs = true -> is_ok (all_results rs) = true.
Proof.
  induction rs as [| r rest IH]; simpl; [reflexivity|].
  destruct r as [a | e]; simpl; [|discriminate].
  intros H. specialize (IH H). now destruct (all_results rest).
Qed.

Lemma result_promise_all {A : Type} (promises : list (Async.t A)) (env : Env) :
  result (promise_all promises) env =
  all_results (map (fun p => result p env) promises).
Proof. unfold result, promise_all. simpl. now rewrite map_map. Qed.

End AsyncFacts.

(* ===================================================================== *)
(** ** Chunks *)
(* ===================================================================== *)

Module JsFacts.

(** The fuel [chunk] gives itself is enough: whatever fuel covers the
    length of the array, the chunks put end to end are the array. *)
Lemma chunk_fuel_concat {A : Type} (size fuel : nat) :
  forall l : list A,
    (List.length l <= fuel)%nat ->
    List.concat (Js.chunk_fuel fuel (S size) l) = l.
Proof.
  induction fuel as [| fuel IH]; intros l Hfuel.
  - destruct l; [reflexivity | simpl in Hfuel; lia].
  - destruct l as [| x rest]; [reflexivity|].
    cbn [Js.chunk_fuel List.concat].
    rewrite IH.
    + apply firstn_skipn.
    + rewrite length_skipn. simpl in Hfuel |- *. lia.
Qed.

Lemma chunk_concat {A : Type} (size : nat) (l : list A) :
  List.concat (Js.chunk l (S size)) = l.
Proof. apply chunk_fuel_concat. lia. Qed.

(** No chunk is empty and none holds more than [size] elements. *)
Lemma chunk_fuel_sizes {A : Type} (size fuel : nat) :
  forall l : list A,
    Forall (fun c => (1 <= List.length c <= S size)%nat)
           (Js.chunk_fuel fuel (S size) l).
Proof.
  induction fuel as [| fuel IH]; intros l; [constructor|].
  destruct l as [| x rest]; [constructor|].
  cbn [Js.chunk_fuel]. constructor; [|apply IH].
  rewrite length_firstn. simpl. lia.
Qed.

End JsFacts.

(* ===================================================================== *)
(** ** The resource identifier of a service *)
(* ===================================================================== *)

Module ResourceId.
Import StopFargateEcsServicesTrick.

Fixpoint has_slash (s : string) : bool :=
  match s with
  | EmptyString => false
  | String c rest => Ascii.eqb c "/" || has_slash rest
  end.

(** The last '/'-separated segment of a string, read off the string
    itself: what follows its last '/', the whole string when it has
    none. *)
Fixpoint last_segment (s : string) : string :=
  match s with
  | EmptyString => EmptyString
  | String c rest =>
      if has_slash rest then last_segment rest
      else if Ascii.eqb c "/" then rest
      else s
  end.

(** The resource identifiers that a scalable-target request names. *)
Definition scalable_target_ids (c : Call) : list string :=
  match c with
  | DescribeScalableTargets _ ids _ => ids
  | RegisterScalableTarget _ id _ _ _ => [id]
  | _ => []
  end.

(** Every scalable-target request built by a computation, dispatched or
    not, names [id] and nothing else. *)
Definition addresses (id : string) (e : Event) : Prop :=
  match e with
  | Request c | Unsent c => Forall (eq id) (scalable_target_ids c)
  | _ => True
  end.

(** The key under which application auto scaling files a target. *)
Definition target_key (c : Call) : list (string * string * string) :=
  match c with
  | RegisterScalableTarget ns id dim _ _ => [(ns, id, dim)]
  | _ => []
  end.

Lemma split_nonempty (sep : ascii) (s : string) : Js.split sep s <> [].
Proof.
  destruct s as [| c rest]; simpl; [discriminate|].
  destruct (Ascii.eqb c sep); [discriminate|].
  destruct (Js.split sep rest); discriminate.
Qed.

Lemma pop_cons {A : Type} (x : A) (l : list A) :
  l <> [] -> Js.pop (x :: l) = Js.pop l.
Proof. destruct l; [congruence | reflexivity]. Qed.

Lemma split_without_slash (s : string) :
  has_slash s = false -> Js.split "/" s = [s].
Proof.
  induction s as [| c rest IH]; simpl; [reflexivity|].
  intros H. apply orb_false_iff in H as [Hc Hrest].
  rewrite Hc, (IH Hrest). reflexivity.
Qed.

Lemma split_with_slash (s : string) :
  has_slash s = true -> exists a b l, Js.split "/" s = a :: b :: l.
Proof.
  induction s as [| c rest IH]; simpl; [discriminate|].
  destruct (Ascii.eqb c "/") eqn:Hc; simpl.
  - intros _. destruct (Js.split "/" rest) as [| b l] eqn:E.
    + now apply split_nonempty in E.
    + now exists EmptyString, b, l.
  - intros H. destruct (IH H) as (a & b & l & ->).
    now exists (String c a), b, l.
Qed.

Lemma last_segment_without_slash (s : string) :
  has_slash s = false -> last_segment s = s.
Proof.
  destruct s as [| c rest]; simpl; [reflexivity|].
  intros H. apply orb_false_iff in H as [Hc Hrest].
  now rewrite Hrest, Hc.
Qed.

(** [s.split('/').pop()] is the last segment of [s]: it is never
    [undefined]. *)
Lemma pop_split (s : string) :
  Js.pop (Js.split "/" s) = Some (last_segment s).
Proof.
  induction s as [| c rest IH]; [reflexivity|].
  cbn [Js.split last_segment].
  destruct (has_slash rest) eqn:Hrest.
  - destruct (split_with_slash rest Hrest) as (a & b & l & E).
    rewrite E in IH |- *.
    destruct (Ascii.eqb c "/"); rewrite !pop_cons by discriminate;
      rewrite pop_cons in IH by discriminate; exact IH.
  - rewrite (split_without_slash rest Hrest).
    destruct (Ascii.eqb c "/"); reflexivity.
Qed.

Lemma last_segment_has_no_slash (s : string) :
  has_slash (last_segment s) = false.
Proof.
  induction s as [| c rest IH]; [reflexivity|]. simpl.
  destruct (has_slash rest) eqn:Hrest; [exact IH|].
  destruct (Ascii.eqb c "/") eqn:Hc; [exact Hrest|].
  simpl. now rewrite Hc, Hrest.
Qed.

(** The segment ends the string, right after a '/' unless it is the whole
    string. *)
Lemma last_segment_suffix (s : string) :
  s = last_segment s \/
  exists before, s = (before ++ "/" ++ last_segment s)%string.
Proof.
  induction s as [| c rest IH]; [now left|]. simpl.
  destruct (has_slash rest) eqn:Hrest.
  - right. destruct IH as [IH | [before IH]].
    + rewrite IH, last_segment_has_no_slash in Hrest. discriminate.
    + exists (String c before). simpl. f_equal. exact IH.
  - destruct (Ascii.eqb_spec c "/") as [-> | Hc].
    + right. now exists EmptyString.
    + now left.
Qed.

Lemma resource_id_segments (clusterArn serviceArn : string) :
  getEcsServiceResourceId clusterArn serviceArn =
  ("service/" ++ last_segment clusterArn ++ "/" ++ last_segment serviceArn)%string.
Proof. unfold getEcsServiceResourceId. now rewrite !pop_split. Qed.

End ResourceId.

(* ===================================================================== *)
(** ** The four leaf tasks *)
(* ===================================================================== *)

Module TaskFacts.
Import StopFargateEcsServicesTrick AsyncFacts.

(** The tasks that [conserve] and [restore] add, in the order of the two
    nested loops. *)
Definition tasks (mk : EcsClusterState.t -> EcsServiceState.t -> Listr.Task)
    (state : StopFargateEcsServicesState) : list Listr.Task :=
  flat_map (fun cluster => map (mk cluster) (EcsClusterState.services cluster)) state.

Lemma addTasks_app mk state subListr :
  addTasks mk state subListr = subListr ++ tasks mk state.
Proof.
  unfold addTasks, tasks. revert subListr.
  induction state as [| cluster rest IH]; intros subListr; simpl.
  - now rewrite app_nil_r.
  - rewrite IH, app_assoc. f_equal.
    generalize (EcsClusterState.services cluster) as l. clear.
    intros l. revert subListr.
    induction l as [| service l IH]; intros subListr; simpl.
    + now rewrite app_nil_r.
    + rewrite IH. unfold Listr.add. now rewrite <- app_assoc.
Qed.

(** The request that puts a captured target back, and the one that zeroes
    it. *)
Definition restoreCall (cluster : EcsClusterState.t) (service : EcsServiceState.t)
    (target : ScalableTargetState.t) : Call :=
  RegisterScalableTarget
    (ScalableTargetState.namespace target)
    (getEcsServiceResourceId (EcsClusterState.arn cluster) (EcsServiceState.arn service))
    (ScalableTargetState.scalableDimension target)
    (ScalableTargetState.min target)
    (ScalableTargetState.max target).

Definition conserveCall (cluster : EcsClusterState.t) (service : EcsServiceState.t)
    (target : ScalableTargetState.t) : Call :=
  RegisterScalableTarget
    (ScalableTargetState.namespace target)
    (getEcsServiceResourceId (EcsClusterState.arn cluster) (EcsServiceState.arn service))
    (ScalableTargetState.scalableDimension target)
    0 0.

Definition waitCall (cluster : EcsClusterState.t) (service : EcsServiceState.t) : Call :=
  WaitFor "servicesStable" (EcsClusterState.arn cluster) [EcsServiceState.arn service].

Definition updateCall (cluster : EcsClusterState.t) (service : EcsServiceState.t)
    (count : Z) : Call :=
  UpdateService (EcsClusterState.arn cluster) (EcsServiceState.arn service) count.

(** A loop whose body is one accepted request per element. *)
Lemma for_of_requests {A : Type} (xs : list A) (body : A -> Async.t unit)
    (call : A -> Call) (env : Env) :
  (forall x, In x xs -> body x env = ([Ev (Request (call x))], Ok tt)) ->
  for_of xs body env = (map (fun x => Ev (Request (call x))) xs, Ok tt).
Proof.
  induction xs as [| x rest IH]; intros H; [reflexivity|].
  simpl. unfold then_. rewrite (H x) by now left.
  rewrite IH; [reflexivity|]. intros y Hy. apply H. now right.
Qed.

(** A loop whose body only reports a skip. *)
Lemma for_of_skips {A : Type} (xs : list A) (body : A -> Async.t unit)
    (text : string) (env : Env) :
  (forall x, In x xs -> body x env = ([Ev (Skip text)], Ok tt)) ->
  for_of xs body env = (map (fun _ => Ev (Skip text)) xs, Ok tt).
Proof.
  induction xs as [| x rest IH]; intros H; [reflexivity|].
  simpl. unfold then_. rewrite (H x) by now left.
  rewrite IH; [reflexivity|]. intros y Hy. apply H. now right.
Qed.

Lemma request_register_accepted (env : Env) ns id dim lo hi :
  accepts_mutations env ->
  request (RegisterScalableTarget ns id dim lo hi) env =
  ([Ev (Request (RegisterScalableTarget ns id dim lo hi))], Ok tt).
Proof.
  intros Henv. unfold request.
  specialize (Henv (RegisterScalableTarget ns id dim lo hi) eq_refl).
  destruct (env (RegisterScalableTarget ns id dim lo hi)) as [[] | e];
    [reflexivity | discriminate].
Qed.

(** *** Desired count *)

(** What [conserveService] records, case by case. *)
Lemma conserveService_trace dryRun cluster service env :
  trace (conserveService dryRun cluster service) env =
  if dryRun then [Ev (Skip "Skipped due to dry-run")]
  else if EcsServiceState.desired service >? 0 then
    [Ev (Output "Updating desired count to zero...");
     Ev (Request (updateCall cluster service 0))]
    ++ (if is_ok (env (updateCall cluster service 0)) then
          [Ev (Output "Waiting for service to scale down to zero...");
           Ev (Unsent (waitCall cluster service));
           Ev (Output "Set desired count to zero")]
        else [])
  else [Ev (Skip "Skipped, desired count is already zero")].
Proof.
  unfold conserveService, trace, updateCall, waitCall.
  destruct dryRun; [reflexivity|].
  destruct (EcsServiceState.desired service >? 0); [|reflexivity].
  simpl. unfold then_, output, request, unsent. simpl.
  destruct (env (UpdateService _ _ _)) as [[] | e]; reflexivity.
Qed.

(** What [restoreService] records, case by case. *)
Lemma restoreService_trace dryRun cluster service env :
  let desired := EcsServiceState.desired service in
  trace (restoreService dryRun cluster service) env =
  if dryRun then [Ev (Skip "Skipped due to dry-run")]
  else if desired >? 0 then
    [Ev (Output ("Updating desired count to " ++ Js.number_to_string desired ++ "...")%string);
     Ev (Request (updateCall cluster service desired))]
    ++ (if is_ok (env (updateCall cluster service desired)) then
          [Ev (Output ("Waiting for service to reach " ++ Js.number_to_string desired
                       ++ " desired tasks...")%string);
           Ev (Unsent (waitCall cluster service));
           Ev (Output ("Restored desired count to " ++ Js.number_to_string desired)%string)]
        else [])
  else [Ev (Skip "Skipped, desired count was previously zero")].
Proof.
  unfold restoreService, trace, updateCall, waitCall.
  destruct dryRun; [reflexivity|].
  destruct (EcsServiceState.desired service >? 0); [|reflexivity].
  cbn [bind ret Monad_Async]. unfold then_, output, request, unsent. cbn [fst snd app].
  destruct (env (UpdateService _ _ _)) as [[] | e]; reflexivity.
Qed.

(** *** Auto scaling *)

Lemma noScalableTargets_or_empty targets :
  noScalableTargets targets = true -> Js.or_empty targets = [].
Proof.
  destruct targets as [[| x l] |]; simpl; try reflexivity; discriminate.
Qed.

(** With a provider that accepts registrations, [conserveScalableTargets]
    zeroes every captured target, in order. *)
Lemma conserveScalableTargets_trace dryRun cluster service env :
  accepts_mutations env ->
  trace (conserveScalableTargets dryRun cluster service) env =
  if noScalableTargets (EcsServiceState.scalableTargets service) then
    [Ev (Skip "No scalable targets defined")]
  else if dryRun then [Ev (Skip "Skipped due to dry-run")]
  else map (fun target => Ev (Request (conserveCall cluster service target)))
           (Js.or_empty (EcsServiceState.scalableTargets service)).
Proof.
  intros Henv. unfold conserveScalableTargets, trace.
  destruct (noScalableTargets _); [reflexivity|].
  destruct dryRun; [reflexivity|].
  erewrite for_of_requests; [reflexivity|].
  intros target _. now apply request_register_accepted.
Qed.

(** Under dry-run [restoreScalableTargets] reports one skip per target. *)
Lemma restoreScalableTargets_dry_trace cluster service env :
  trace (restoreScalableTargets true cluster service) env =
  if noScalableTargets (EcsServiceState.scalableTargets service) then
    [Ev (Skip "No scalable targets defined")]
  else
    map (fun _ => Ev (Skip "Skipped due to dry-run"))
        (Js.or_empty (EcsServiceState.scalableTargets service)).
Proof.
  unfold restoreScalableTargets, trace.
  destruct (noScalableTargets _); [reflexivity|].
  erewrite for_of_skips; reflexivity.
Qed.

(** With a provider that accepts registrations, [restoreScalableTargets]
    registers every captured target with its captured bounds, in order;
    under dry-run it reports one skip per target. *)
Lemma restoreScalableTargets_trace dryRun cluster service env :
  accepts_mutations env ->
  trace (restoreScalableTargets dryRun cluster service) env =
  if noScalableTargets (EcsServiceState.scalableTargets service) then
    [Ev (Skip "No scalable targets defined")]
  else if dryRun then
    map (fun _ => Ev (Skip "Skipped due to dry-run"))
        (Js.or_empty (EcsServiceState.scalableTargets service))
  else map (fun target => Ev (Request (restoreCall cluster service target)))
           (Js.or_empty (EcsServiceState.scalableTargets service)).
Proof.
  intros Henv. unfold restoreScalableTargets, trace.
  destruct (noScalableTargets _); [reflexivity|].
  destruct dryRun.
  - erewrite for_of_skips; [reflexivity|]. reflexivity.
  - erewrite for_of_requests; [reflexivity|].
    intros target _. now apply request_register_accepted.
Qed.

End TaskFacts.

(* ===================================================================== *)
(** ** Restore and the live configuration *)
(* ===================================================================== *)

Section RestoreAgain.
Import StopFargateEcsServicesTrick AsyncFacts TaskFacts.

Lemma mutations_requests {A : Type} (call : A -> Call) (xs : list A) :
  (forall x, is_mutating (call x) = true) ->
  mutations (map (fun x => Ev (Request (call x))) xs) = map call xs.
Proof.
  intros H. induction xs as [| x rest IH]; [reflexivity|].
  change (map (fun x => Ev (Request (call x))) (x :: rest))
    with ([Ev (Request (call x))] ++ map (fun x => Ev (Request (call x))) rest).
  rewrite mutations_app, IH. unfold mutations, dispatched. simpl.
  now rewrite H.
Qed.

Lemma mutations_skips {A : Type} (text : string) (xs : list A) :
  mutations (map (fun _ => Ev (Skip text)) xs) = [].
Proof.
  induction xs as [| x rest IH]; [reflexivity|].
  change (map (fun _ => Ev (Skip text)) (x :: rest))
    with ([Ev (Skip text)] ++ map (fun _ => Ev (Skip text)) rest).
  now rewrite mutations_app, IH.
Qed.

(** The desired-count branch of restore looks at the captured count and at
    [dryRun], and at nothing else. *)
Lemma restoreService_mutations dryRun cluster service env :
  mutations (trace (restoreService dryRun cluster service) env) =
  if negb dryRun && (EcsServiceState.desired service >? 0)
  then [updateCall cluster service (EcsServiceState.desired service)]
  else [].
Proof.
  rewrite restoreService_trace.
  destruct dryRun; [reflexivity|]. cbn [negb andb].
  destruct (EcsServiceState.desired service >? 0); [|reflexivity].
  rewrite mutations_app.
  destruct (is_ok (env _)); reflexivity.
Qed.

(** C1 (as amended).  Restore never reads the live configuration: the
    desired-count branch dispatches the update exactly when [dryRun] is
    false and the captured count is positive, and the scalable-target
    branch registers every captured target with its captured bounds
    exactly when [dryRun] is false; both are functions of the captured
    state alone, so a second restore with the same state dispatches the
    same mutating requests as the first. *)
Theorem restore_mutates_from_captured_state
    (env : Env) (dryRun : bool)
    (cluster : EcsClusterState.t) (service : EcsServiceState.t) :
  accepts_mutations env ->
  mutations (trace (restoreService dryRun cluster service) env) =
    (if negb dryRun && (EcsServiceState.desired service >? 0)
     then [updateCall cluster service (EcsServiceState.desired service)]
     else [])
  /\
  mutations (trace (restoreScalableTargets dryRun cluster service) env) =
    (if dryRun then []
     else map (restoreCall cluster service)
              (Js.or_empty (EcsServiceState.scalableTargets service))).
Proof.
  intros Henv. split; [apply restoreService_mutations|].
  rewrite restoreScalableTargets_trace by assumption.
  destruct (noScalableTargets _) eqn:Hnone.
  - rewrite (noScalableTargets_or_empty _ Hnone). now destruct dryRun.
  - destruct dryRun.
    + apply mutations_skips.
    + now apply mutations_requests.
Qed.

Lemma account_accepts services targets :
  accepts_mutations (Sample.account services targets).
Proof. intros c Hc. destruct c; try discriminate; reflexivity. Qed.

Lemma restore_mutates_from_captured_state_witness :
  accepts_mutations (Sample.account [Sample.web 3] [Sample.target 1 10]) /\
  mutations (trace (restoreService false
                      (Sample.clusterState [])
                      (Sample.serviceState 3 [Sample.capturedTarget 1 10]))
                   (Sample.account [Sample.web 3] [Sample.target 1 10])) =
    [UpdateService Sample.clusterArn Sample.serviceArn 3] /\
  mutations (trace (restoreScalableTargets false
                      (Sample.clusterState [])
                      (Sample.serviceState 3 [Sample.capturedTarget 1 10]))
                   (Sample.account [Sample.web 3] [Sample.target 1 10])) =
    [RegisterScalableTarget "ecs" "service/main/web" Sample.dimension 1 10].
Proof.
  split; [apply account_accepts|].
  exact (restore_mutates_from_captured_state
           (Sample.account [Sample.web 3] [Sample.target 1 10]) false
           (Sample.clusterState [])
           (Sample.serviceState 3 [Sample.capturedTarget 1 10])
           (account_accepts _ _)).
Defined.

(** C1 (counterexample).  The account already has the captured values
    (desired count 3, target bounds 1 and 10), as it has after a first
    restore; restoring the same state again does not report skips: it
    dispatches the update and the registration again. *)
Lemma restore_again_mutates_again :
  exists listr,
    result (restore [] false
              [Sample.clusterState
                 [Sample.serviceState 3 [Sample.capturedTarget 1 10]]])
           (Sample.account [Sample.web 3] [Sample.target 1 10]) = Ok listr
    /\ Sample.mutationsOf (Sample.account [Sample.web 3] [Sample.target 1 10]) listr =
       [ UpdateService Sample.clusterArn Sample.serviceArn 3;
         RegisterScalableTarget "ecs" "service/main/web" Sample.dimension 1 10 ]
    /\ flat_map (fun leaf =>
                   skips (trace (Listr.leaf_task leaf)
                                (Sample.account [Sample.web 3] [Sample.target 1 10])))
                (Listr.leaves listr) = [].
Proof. eexists. split; [reflexivity|]. split; reflexivity. Qed.

End RestoreAgain.

(* ===================================================================== *)
(** ** Waiting for stability *)
(* ===================================================================== *)

Section Stability.
Import StopFargateEcsServicesTrick AsyncFacts TaskFacts.

(** Whatever the provider answers, the only request the two desired-count
    tasks dispatch is the update: the [waitFor('servicesStable')] request
    is built and never sent. *)
Lemma desired_count_tasks_dispatch_only_the_update dryRun cluster service env :
  dispatched (trace (conserveService dryRun cluster service) env) =
    (if negb dryRun && (EcsServiceState.desired service >? 0)
     then [updateCall cluster service 0] else [])
  /\
  dispatched (trace (restoreService dryRun cluster service) env) =
    (if negb dryRun && (EcsServiceState.desired service >? 0)
     then [updateCall cluster service (EcsServiceState.desired service)] else []).
Proof.
  rewrite conserveService_trace, restoreService_trace.
  destruct dryRun; [split; reflexivity|]. cbn [negb andb].
  destruct (EcsServiceState.desired service >? 0); [|split; reflexivity].
  rewrite !dispatched_app.
  split; destruct (is_ok (env _)); reflexivity.
Qed.

(** C2 (the code at the failing input).  A service captured with desired
    count 3, [dryRun] false, a provider that accepts the update: both
    desired-count tasks record their final output although no
    [servicesStable] wait was dispatched; the wait request is only
    built. *)
Theorem desired_count_reported_without_waiting :
  let cluster := Sample.clusterState [] in
  let service := Sample.serviceState 3 [] in
  let env := Sample.account [Sample.web 3] [] in
  trace (conserveService false cluster service) env =
    [ Ev (Output "Updating desired count to zero...");
      Ev (Request (UpdateService Sample.clusterArn Sample.serviceArn 0));
      Ev (Output "Waiting for service to scale down to zero...");
      Ev (Unsent (WaitFor "servicesStable" Sample.clusterArn [Sample.serviceArn]));
      Ev (Output "Set desired count to zero") ]
  /\ trace (restoreService false cluster service) env =
    [ Ev (Output "Updating desired count to 3...");
      Ev (Request (UpdateService Sample.clusterArn Sample.serviceArn 3));
      Ev (Output "Waiting for service to reach 3 desired tasks...");
      Ev (Unsent (WaitFor "servicesStable" Sample.clusterArn [Sample.serviceArn]));
      Ev (Output "Restored desired count to 3") ]
  /\ filter is_wait (dispatched (trace (conserveService false cluster service) env)) = []
  /\ filter is_wait (dispatched (trace (restoreService false cluster service) env)) = [].
Proof. repeat split; reflexivity. Qed.

(** A rejected update ends the task there: the leaf is rejected with the
    provider's error and records no further output. *)
Lemma rejected_update_ends_the_task :
  conserveService false (Sample.clusterState []) (Sample.serviceState 3 [])
    (Sample.readOnly (Sample.account [Sample.web 3] [])) =
  ([ Ev (Output "Updating desired count to zero...");
     Ev (Request (UpdateService Sample.clusterArn Sample.serviceArn 0)) ],
   Rejected (AwsError "AccessDeniedException")).
Proof. reflexivity. Qed.

End Stability.

(* ===================================================================== *)
(** ** Dry run *)
(* ===================================================================== *)

Section DryRun.
Import StopFargateEcsServicesTrick AsyncFacts TaskFacts.

Create HintDb every discriminated.
#[local] Hint Resolve every_ret every_throw every_request every_unsent
  every_output every_skip : every.

(** Discovery only lists and describes. *)
Lemma getServiceState_read_only service : every read_only (getServiceState service).
Proof.
  unfold getServiceState, describeAllScalableTargets.
  destruct (serviceArn service) as [arn |]; [|auto with every].
  destruct (desiredCount service) as [desired |]; [|auto with every].
  apply every_bind; [|auto with every].
  repeat apply every_if; auto with every.
  apply every_bind; [apply every_request; reflexivity | auto with every].
Qed.

Lemma describeChunks_read_only clusterArn chunks result :
  every read_only (describeChunks clusterArn chunks result).
Proof.
  revert result. induction chunks as [| services rest IH]; intros result; simpl.
  - auto with every.
  - apply every_bind; [apply every_request; reflexivity | intros; apply IH].
Qed.

Lemma getCurrentState_read_only clustersArn :
  every read_only (getCurrentState clustersArn).
Proof.
  apply every_promise_all. intros p Hp.
  apply in_map_iff in Hp as (clusterArn & <- & _).
  unfold getClusterState, describeAllServices, listServices.
  apply every_bind.
  - apply every_bind.
    + apply every_bind; [apply every_request; reflexivity | auto with every].
    + intros servicesArn. apply describeChunks_read_only.
  - intros services. apply every_bind; [|auto with every].
    apply every_promise_all. intros q Hq.
    apply in_map_iff in Hq as (service & <- & _).
    apply getServiceState_read_only.
Qed.

Lemma conserve_read_only subListr dryRun : every read_only (conserve subListr dryRun).
Proof.
  unfold conserve, listClusters.
  apply every_bind.
  - apply every_bind; [apply every_request; reflexivity | auto with every].
  - intros clustersArn. apply every_bind; [apply getCurrentState_read_only|].
    auto with every.
Qed.

(** A leaf that, whatever the provider answers, dispatches no mutating
    request and reports at least one skip. *)
Definition dry (leaf : Listr.Leaf) : Prop :=
  forall env,
    mutations (trace (Listr.leaf_task leaf) env) = [] /\
    skips (trace (Listr.leaf_task leaf) env) <> [].

Lemma conserveTask_dry cluster service :
  Forall dry (Listr.subtasks (conserveTask true cluster service)).
Proof.
  apply Forall_cons; [|apply Forall_cons; [|apply Forall_nil]];
    intros env; cbn [Listr.leaf_task].
  - rewrite conserveService_trace. split; [reflexivity | discriminate].
  - unfold conserveScalableTargets, trace.
    destruct (noScalableTargets _); split; try reflexivity; discriminate.
Qed.

Lemma restoreTask_dry cluster service :
  Forall dry (Listr.subtasks (restoreTask true cluster service)).
Proof.
  apply Forall_cons; [|apply Forall_cons; [|apply Forall_nil]];
    intros env; cbn [Listr.leaf_task].
  - rewrite restoreService_trace. split; [reflexivity | discriminate].
  - rewrite restoreScalableTargets_dry_trace.
    destruct (EcsServiceState.scalableTargets service) as [[| target l] |];
      cbn [noScalableTargets List.length Nat.eqb Js.or_empty];
      (split; [try reflexivity; apply mutations_skips | discriminate]).
Qed.

Lemma tasks_dry mk state :
  (forall cluster service, Forall dry (Listr.subtasks (mk cluster service))) ->
  Forall dry (Listr.leaves (tasks mk state)).
Proof.
  intros Hmk. unfold Listr.leaves, tasks.
  apply Forall_flat_map, Forall_flat_map, Forall_forall. intros cluster _.
  apply Forall_map, Forall_forall. intros service _. apply Hmk.
Qed.

(** C3.  Dry-run purity: with [dryRun] true, and whatever the tags, the
    state of the resources and the provider's answers, [conserve]
    dispatches no mutating request (it only lists and describes) and every
    leaf task it adds dispatches none and reports a skip; the same holds
    of [restore] for every captured state. *)
Theorem dry_run_dispatches_no_mutation
    (env : Env) (subListr : Listr.t) (tags : list TagInterface)
    (state : StopFargateEcsServicesState) :
  let conserved := TrickInterface.conserve trick subListr true tags in
  let restored := TrickInterface.restore trick subListr true state in
  mutations (trace conserved env) = []
  /\ match result conserved env with
     | Ok (_, listr) =>
         exists added, listr = subListr ++ added /\ Forall dry (Listr.leaves added)
     | Rejected _ => True
     end
  /\ mutations (trace restored env) = []
  /\ exists added,
       result restored env = Ok (subListr ++ added) /\
       Forall dry (Listr.leaves added).
Proof.
  cbn zeta. cbn [TrickInterface.conserve TrickInterface.restore trick].
  split; [apply read_only_mutations, conserve_read_only|]. split.
  - unfold conserve. rewrite result_bind.
    destruct (result listClusters env) as [clustersArn | e]; [|exact I].
    rewrite result_bind.
    destruct (result (getCurrentState clustersArn) env) as [current | e]; [|exact I].
    cbn. exists (tasks (conserveTask true) current). split.
    + apply addTasks_app.
    + apply tasks_dry, conserveTask_dry.
  - split; [reflexivity|].
    exists (tasks (restoreTask true) state). split.
    + unfold restore, result. cbn. f_equal. apply addTasks_app.
    + apply tasks_dry, restoreTask_dry.
Qed.

End DryRun.

(* ===================================================================== *)
(** ** Discovery and the captured state *)
(* ===================================================================== *)

Module DiscoveryFacts.
Import StopFargateEcsServicesTrick AsyncFacts TaskFacts.

Lemma all_results_rejected_in {A : Type} (rs : list (Result A)) (e : Error) :
  In (Rejected e) rs -> is_ok (all_results rs) = false.
Proof.
  intros H. apply all_results_rejected, existsb_exists.
  exists (Rejected e). now split.
Qed.

Lemma result_listClusters env :
  result listClusters env =
  match env ListClusters with
  | Ok response => Ok (Js.or_empty response)
  | Rejected e => Rejected e
  end.
Proof.
  unfold listClusters. rewrite result_bind. unfold result, request. simpl.
  now destruct (env ListClusters).
Qed.

Lemma result_describeAllScalableTargets service env :
  result (describeAllScalableTargets service) env =
  if Js.falsy (clusterArn service) then
    Rejected (JsError "Unexpected missing clusterArn for ECS service: [object Object]")
  else if Js.falsy (serviceArn service) then
    Rejected (JsError "Unexpected missing serviceArn for ECS service: [object Object]")
  else
    match env (DescribeScalableTargets "ecs"
                 [getEcsServiceResourceId (Js.narrowed (clusterArn service))
                                          (Js.narrowed (serviceArn service))]
                 "ecs:service:DesiredCount") with
    | Ok response => Ok (Js.or_empty response)
    | Rejected e => Rejected e
    end.
Proof.
  unfold describeAllScalableTargets.
  destruct (Js.falsy (clusterArn service)); [reflexivity|].
  destruct (Js.falsy (serviceArn service)); [reflexivity|].
  rewrite result_bind. unfold result, request. simpl.
  now destruct (env _).
Qed.

Lemma result_getServiceState service env :
  result (getServiceState service) env =
  match serviceArn service, desiredCount service with
  | None, _ =>
      Rejected (JsError "Unexpected error: serviceArn is missing for ECS service")
  | Some _, None =>
      Rejected (JsError "Unexpected error: desiredCount is missing for ECS service")
  | Some arn, Some desired =>
      match result (describeAllScalableTargets service) env with
      | Ok targets =>
          Ok {| EcsServiceState.arn := arn;
                EcsServiceState.desired := desired;
                EcsServiceState.scalableTargets :=
                  Some (map toScalableTargetState targets) |}
      | Rejected e => Rejected e
      end
  end.
Proof.
  unfold getServiceState.
  destruct (serviceArn service) as [arn |]; [|reflexivity].
  destruct (desiredCount service) as [desired |]; [|reflexivity].
  rewrite result_bind.
  now destruct (result (describeAllScalableTargets service) env).
Qed.

Lemma result_getClusterState clusterArn env :
  result (getClusterState clusterArn) env =
  match result (describeAllServices clusterArn) env with
  | Ok services =>
      match all_results (map (fun s => result (getServiceState s) env) services) with
      | Ok states =>
          Ok {| EcsClusterState.arn := clusterArn;
                EcsClusterState.services := states |}
      | Rejected e => Rejected e
      end
  | Rejected e => Rejected e
  end.
Proof.
  unfold getClusterState. rewrite result_bind.
  destruct (result (describeAllServices clusterArn) env) as [services | e];
    [|reflexivity].
  cbv beta. rewrite result_bind, result_promise_all, map_map.
  now destruct (all_results _).
Qed.

Lemma result_getCurrentState clustersArn env :
  result (getCurrentState clustersArn) env =
  all_results (map (fun c => result (getClusterState c) env) clustersArn).
Proof.
  rewrite <- (map_map getClusterState (fun p => result p env)).
  exact (result_promise_all (map getClusterState clustersArn) env).
Qed.

Lemma result_conserve subListr dryRun env :
  result (conserve subListr dryRun) env =
  match result listClusters env with
  | Ok clustersArn =>
      match result (getCurrentState clustersArn) env with
      | Ok state => Ok (state, subListr ++ tasks (conserveTask dryRun) state)
      | Rejected e => Rejected e
      end
  | Rejected e => Rejected e
  end.
Proof.
  unfold conserve. rewrite result_bind.
  destruct (result listClusters env) as [clustersArn | e]; [|reflexivity].
  rewrite result_bind.
  destruct (result (getCurrentState clustersArn) env) as [state | e]; [|reflexivity].
  cbn. now rewrite addTasks_app.
Qed.

(** A captured entry records the ARN and the desired count of the
    described service. *)
Definition captures (service : Service) (entry : EcsServiceState.t) : Prop :=
  serviceArn service = Some (EcsServiceState.arn entry) /\
  desiredCount service = Some (EcsServiceState.desired entry).

(** A cluster entry holds one captured entry per service that
    [describeAllServices] returned for it, in the same order. *)
Definition complete (env : Env) (entry : EcsClusterState.t) : Prop :=
  exists services,
    result (describeAllServices (EcsClusterState.arn entry)) env = Ok services /\
    Forall2 captures services (EcsClusterState.services entry).

Lemma service_states_capture env services states :
  all_results (map (fun s => result (getServiceState s) env) services) = Ok states ->
  Forall2 captures services states.
Proof.
  revert states. induction services as [| service rest IH]; intros states H.
  - simpl in H. injection H as <-. constructor.
  - apply all_results_ok in H. destruct states as [| entry states]; [discriminate|].
    cbn [map] in H. injection H as Hentry Hrest.
    constructor.
    + rewrite result_getServiceState in Hentry. unfold captures.
      destruct (serviceArn service) as [arn |]; [|discriminate].
      destruct (desiredCount service) as [desired |]; [|discriminate].
      destruct (result (describeAllScalableTargets service) env); [|discriminate].
      injection Hentry as <-. now split.
    + apply IH. now apply all_results_ok.
Qed.

Lemma cluster_states_complete env clustersArn state :
  all_results (map (fun c => result (getClusterState c) env) clustersArn) = Ok state ->
  map EcsClusterState.arn state = clustersArn /\ Forall (complete env) state.
Proof.
  revert state. induction clustersArn as [| c rest IH]; intros state H.
  - simpl in H. injection H as <-. split; constructor.
  - apply all_results_ok in H. destruct state as [| entry state]; [discriminate|].
    cbn [map] in H. injection H as Hentry Hrest.
    apply all_results_ok in Hrest. destruct (IH _ Hrest) as [Harns Hall].
    rewrite result_getClusterState in Hentry.
    destruct (result (describeAllServices c) env) as [services |] eqn:Hdescribe;
      [|discriminate].
    destruct (all_results (map (fun s => result (getServiceState s) env) services))
      as [states |] eqn:Hstates; [|discriminate].
    injection Hentry as <-. simpl. split; [now f_equal|].
    constructor; [|exact Hall].
    exists services. simpl. split; [exact Hdescribe|].
    now apply (service_states_capture env).
Qed.

(** What the provider must answer for discovery to go through. *)
Definition service_ok (env : Env) (service : Service) : bool :=
  negb (Js.falsy (serviceArn service))
  && match desiredCount service with Some _ => true | None => false end
  && negb (Js.falsy (clusterArn service))
  && is_ok (env (DescribeScalableTargets "ecs"
                   [getEcsServiceResourceId (Js.narrowed (clusterArn service))
                                            (Js.narrowed (serviceArn service))]
                   "ecs:service:DesiredCount")).

Definition cluster_ok (env : Env) (clusterArn : string) : bool :=
  match result (describeAllServices clusterArn) env with
  | Ok services => forallb (service_ok env) services
  | Rejected _ => false
  end.

Definition discovery_ok (env : Env) : bool :=
  match env ListClusters with
  | Ok response => forallb (cluster_ok env) (Js.or_empty response)
  | Rejected _ => false
  end.

Lemma service_ok_result env service :
  service_ok env service = true -> is_ok (result (getServiceState service) env) = true.
Proof.
  unfold service_ok. intros H.
  apply andb_true_iff in H as [H Hdescribe].
  apply andb_true_iff in H as [H Hcluster].
  apply andb_true_iff in H as [Harn Hdesired].
  rewrite result_getServiceState, result_describeAllScalableTargets.
  destruct (serviceArn service) as [arn |]; [|discriminate].
  destruct (desiredCount service) as [desired |]; [|discriminate].
  apply negb_true_iff in Hcluster, Harn. rewrite Hcluster, Harn.
  now destruct (env _).
Qed.

Lemma cluster_ok_result env clusterArn :
  cluster_ok env clusterArn = true ->
  is_ok (result (getClusterState clusterArn) env) = true.
Proof.
  unfold cluster_ok. intros H. rewrite result_getClusterState.
  destruct (result (describeAllServices clusterArn) env) as [services |];
    [|discriminate].
  assert (Hall : is_ok (all_results
            (map (fun s => result (getServiceState s) env) services)) = true).
  { apply all_results_accepted. rewrite forallb_forall in H |- *.
    intros r Hr. apply in_map_iff in Hr as (service & <- & Hin).
    now apply service_ok_result, H. }
  now destruct (all_results _).
Qed.

Lemma discovery_ok_result env clustersArn :
  forallb (cluster_ok env) clustersArn = true ->
  is_ok (result (getCurrentState clustersArn) env) = true.
Proof.
  intros H. rewrite result_getCurrentState.
  apply all_results_accepted. rewrite forallb_forall in H |- *.
  intros r Hr. apply in_map_iff in Hr as (c & <- & Hin).
  now apply cluster_ok_result, H.
Qed.

End DiscoveryFacts.

Section Conserve.
Import StopFargateEcsServicesTrick AsyncFacts TaskFacts DiscoveryFacts.

(** Whenever [conserve] resolves, the state it resolves to has one entry
    per listed cluster and, in each, one entry per described service. *)
Lemma conserve_state_complete env subListr dryRun state listr :
  result (conserve subListr dryRun) env = Ok (state, listr) ->
  result listClusters env = Ok (map EcsClusterState.arn state) /\
  Forall (complete env) state /\
  listr = subListr ++ tasks (conserveTask dryRun) state.
Proof.
  rewrite result_conserve.
  destruct (result listClusters env) as [clustersArn |]; [|discriminate].
  rewrite result_getCurrentState.
  destruct (all_results _) as [current |] eqn:Hcurrent; [|discriminate].
  intros H. injection H as <- <-.
  destruct (cluster_states_complete _ _ _ Hcurrent) as [-> Hall].
  auto.
Qed.

(** The captured services of a state with their cluster, in the order of
    the two nested loops. *)
Definition entriesOf (state : StopFargateEcsServicesState)
    : list (EcsClusterState.t * EcsServiceState.t) :=
  flat_map (fun cluster => map (pair cluster) (EcsClusterState.services cluster)) state.

(** [task] is the task of the captured service [entry]: it is titled with
    the resource identifier of the service, its first leaf is 'Desired
    count' and, when the service was captured at zero, that leaf records
    one skip and nothing else, whatever the provider answers. *)
Definition annotates (dryRun : bool)
    (entry : EcsClusterState.t * EcsServiceState.t) (task : Listr.Task) : Prop :=
  Listr.title task =
    Listr.BlueBright (getEcsServiceResourceId (EcsClusterState.arn (fst entry))
                                              (EcsServiceState.arn (snd entry)))
  /\ exists desiredCount autoScaling,
       Listr.subtasks task = [desiredCount; autoScaling]
       /\ Listr.leaf_title desiredCount = Listr.Plain "Desired count"
       /\ (EcsServiceState.desired (snd entry) = 0 ->
           forall env,
             trace (Listr.leaf_task desiredCount) env =
             [Ev (Skip (if dryRun then "Skipped due to dry-run"
                        else "Skipped, desired count is already zero"))]).

Lemma conserveTask_annotates dryRun cluster service :
  annotates dryRun (cluster, service) (conserveTask dryRun cluster service).
Proof.
  split; [reflexivity|].
  eexists. eexists. split; [reflexivity|]. split; [reflexivity|].
  cbn [Listr.leaf_task fst snd]. intros Hzero env.
  rewrite conserveService_trace, Hzero. now destruct dryRun.
Qed.

Lemma tasks_annotate dryRun state :
  Forall2 (annotates dryRun) (entriesOf state) (tasks (conserveTask dryRun) state).
Proof.
  unfold entriesOf, tasks.
  induction state as [| cluster rest IH]; [constructor|].
  cbn [flat_map]. apply Forall2_app; [|exact IH].
  induction (EcsClusterState.services cluster) as [| service l IHl]; [constructor|].
  cbn [map]. constructor; [apply conserveTask_annotates | exact IHl].
Qed.



(** An account whose cluster lists two Fargate services and describes
    none of them (the provider reports them among the failures, which the
    code does not read). *)
Definition undescribed : Env :=
  fun c =>
    match c as c0 return Result (reply c0) with
    | ListServices _ _ =>
        Ok (Some [Sample.serviceArn;
                  "arn:aws:ecs:eu-west-1:123456789012:service/main/api"])
    | c0 => Sample.account [] [] c0
    end.


(** *** A service without its ARN or its desired count *)

(** A described service that lacks the ARN, with a sibling that lacks
    nothing. *)
Definition nameless : Service :=
  {| serviceArn := None;
     desiredCount := Some 2;
     clusterArn := Some Sample.clusterArn |}.

(** C4 (as amended).  When a service described for a listed cluster lacks
    its [serviceArn] or its [desiredCount], [getCurrentState] throws and
    [conserve] is rejected as a whole: it resolves to no state and adds no
    task, for that service or for any other. *)
Theorem missing_field_rejects_conserve
    (env : Env) (subListr : Listr.t) (dryRun : bool)
    (clustersArn : list string) (cluster : string)
    (services : list Service) (service : Service) :
  result listClusters env = Ok clustersArn ->
  In cluster clustersArn ->
  result (describeAllServices cluster) env = Ok services ->
  In service services ->
  serviceArn service = None \/ desiredCount service = None ->
  is_ok (result (conserve subListr dryRun) env) = false.
Proof.
  intros Hlist Hcluster Hdescribe Hservice Hmissing.
  assert (Hthrows : exists e, result (getServiceState service) env = Rejected e).
  { rewrite result_getServiceState.
    destruct Hmissing as [-> | ->]; [eauto|].
    destruct (serviceArn service); eauto. }
  destruct Hthrows as [e He].
  assert (Hbranch : is_ok (result (getClusterState cluster) env) = false).
  { rewrite result_getClusterState, Hdescribe.
    assert (H : is_ok (all_results
              (map (fun s => result (getServiceState s) env) services)) = false).
    { apply (all_results_rejected_in _ e). rewrite <- He.
      apply (in_map (fun s => result (getServiceState s) env)), Hservice. }
    now destruct (all_results _). }
  rewrite result_conserve, Hlist, result_getCurrentState.
  destruct (result (getClusterState cluster) env) as [| e'] eqn:He'; [discriminate|].
  assert (H : is_ok (all_results
            (map (fun c => result (getClusterState c) env) clustersArn)) = false).
  { apply (all_results_rejected_in _ e'). rewrite <- He'.
    apply (in_map (fun c => result (getClusterState c) env)), Hcluster. }
  now destruct (all_results _).
Qed.

Lemma missing_field_rejects_conserve_witness :
  result listClusters (Sample.account [nameless; Sample.web 3] []) =
    Ok [Sample.clusterArn]
  /\ In Sample.clusterArn [Sample.clusterArn]
  /\ result (describeAllServices Sample.clusterArn)
            (Sample.account [nameless; Sample.web 3] []) =
     Ok [nameless; Sample.web 3]
  /\ In nameless [nameless; Sample.web 3]
  /\ (serviceArn nameless = None \/ desiredCount nameless = None)
  /\ is_ok (result (conserve [] false)
              (Sample.account [nameless; Sample.web 3] [])) = false.
Proof.
  assert (Hin : In nameless [nameless; Sample.web 3]) by (simpl; auto).
  assert (Hcluster : In Sample.clusterArn [Sample.clusterArn]) by (simpl; auto).
  split; [reflexivity|]. split; [exact Hcluster|].
  split; [reflexivity|]. split; [exact Hin|].
  split; [left; reflexivity|].
  exact (missing_field_rejects_conserve
           (Sample.account [nameless; Sample.web 3] []) [] false
           [Sample.clusterArn] Sample.clusterArn
           [nameless; Sample.web 3] nameless
           eq_refl Hcluster eq_refl Hin (or_introl eq_refl)).
Defined.

(** C4 (counterexample).  One described service lacks its ARN, its sibling
    lacks nothing and is captured when it is alone; with both, [conserve]
    is rejected with the error thrown for the first: the sibling's state
    is not returned and no task is added for it. *)
Lemma missing_field_is_not_local :
  result (conserve [] false) (Sample.account [nameless; Sample.web 3] []) =
    Rejected (JsError "Unexpected error: serviceArn is missing for ECS service")
  /\ exists listr,
       result (conserve [] false) (Sample.account [Sample.web 3] []) =
         Ok ([Sample.clusterState [Sample.serviceState 3 []]], listr)
       /\ List.length listr = 1%nat.
Proof. split; [reflexivity|]. eexists. split; reflexivity. Qed.

(** *** Tags *)

Lemma conserve_complete_or_rejected env subListr dryRun :
  match result (conserve subListr dryRun) env with
  | Ok (state, _) =>
      result listClusters env = Ok (map EcsClusterState.arn state) /\
      Forall (complete env) state
  | Rejected _ => True
  end.
Proof.
  destruct (result (conserve subListr dryRun) env) as [[state listr] |] eqn:Hresult;
    [|exact I].
  destruct (conserve_state_complete _ _ _ _ _ Hresult) as (Hlist & Hall & _).
  now split.
Qed.

(** C5 (as amended).  [conserve] of this trick declares two parameters,
    [subListr] and [dryRun]: a [tags] argument passed through
    [TrickInterface] is dropped, so what it discovers and records is the
    same for every tags value, and whatever the tags the state it returns
    holds every listed cluster and every service described for it. *)
Theorem conserve_ignores_tags
    (env : Env) (subListr : Listr.t) (dryRun : bool)
    (tags tags' : list TagInterface) :
  TrickInterface.conserve trick subListr dryRun tags env =
  TrickInterface.conserve trick subListr dryRun tags' env
  /\ match result (TrickInterface.conserve trick subListr dryRun tags) env with
     | Ok (state, _) =>
         result listClusters env = Ok (map EcsClusterState.arn state) /\
         Forall (complete env) state
     | Rejected _ => True
     end.
Proof.
  split; [reflexivity|].
  exact (conserve_complete_or_rejected env subListr dryRun).
Qed.

(** C5 (counterexample).  With a tag criterion and with none, [conserve]
    records the same service: the criterion filters nothing. *)
Lemma tags_do_not_scope_discovery :
  exists listr listr',
    result (TrickInterface.conserve trick [] false
              [{| tag_key := "Team"; tag_value := "Tacos" |}])
           (Sample.account [Sample.web 3] []) =
      Ok ([Sample.clusterState [Sample.serviceState 3 []]], listr)
    /\ result (TrickInterface.conserve trick [] false [])
              (Sample.account [Sample.web 3] []) =
       Ok ([Sample.clusterState [Sample.serviceState 3 []]], listr').
Proof. do 2 eexists. split; reflexivity. Qed.

End Conserve.

(* ===================================================================== *)
(** ** Restore needs only the captured state *)
(* ===================================================================== *)

Section SelfContained.
Import StopFargateEcsServicesTrick AsyncFacts TaskFacts.

(** No request that is built, dispatched or not, lists or describes. *)
Definition no_discovery (e : Event) : Prop :=
  match e with
  | Request c | Unsent c => is_discovery c = false
  | _ => True
  end.

(** A leaf that never lists or describes, and that records the same trace
    against two providers. *)
Definition blind (env env' : Env) (leaf : Listr.Leaf) : Prop :=
  every no_discovery (Listr.leaf_task leaf) /\
  trace (Listr.leaf_task leaf) env = trace (Listr.leaf_task leaf) env'.

Lemma restoreService_no_discovery dryRun cluster service :
  every no_discovery (restoreService dryRun cluster service).
Proof.
  unfold restoreService. repeat apply every_if.
  - now apply every_skip.
  - repeat (apply every_bind; [|intros ?]);
      (apply every_output || apply every_request || apply every_unsent);
      reflexivity.
  - now apply every_skip.
Qed.

Lemma restoreScalableTargets_no_discovery dryRun cluster service :
  every no_discovery (restoreScalableTargets dryRun cluster service).
Proof.
  unfold restoreScalableTargets. apply every_if; [now apply every_skip|].
  apply every_for_of. intros target _. apply every_if.
  - now apply every_skip.
  - now apply every_request.
Qed.

Lemma restoreService_accepted env cluster service count :
  accepts_mutations env -> is_ok (env (updateCall cluster service count)) = true.
Proof. intros H. now apply H. Qed.

Lemma restoreTask_blind env env' dryRun cluster service :
  accepts_mutations env -> accepts_mutations env' ->
  Forall (blind env env') (Listr.subtasks (restoreTask dryRun cluster service)).
Proof.
  intros Henv Henv'.
  apply Forall_cons; [|apply Forall_cons; [|apply Forall_nil]];
    split; cbn [Listr.leaf_task].
  - apply restoreService_no_discovery.
  - rewrite !restoreService_trace. cbv zeta.
    now rewrite !restoreService_accepted.
  - apply restoreScalableTargets_no_discovery.
  - now rewrite !restoreScalableTargets_trace.
Qed.



End SelfContained.

(* ===================================================================== *)
(** ** One service with desired count 3 and one scalable target *)
(* ===================================================================== *)

(** What running the leaves of a list of tasks against [env] changes: for
    each leaf, in order, its title and the mutating requests it
    dispatches. *)
Definition changesOf (env : Env) (tasks : list Listr.Task)
    : list (Listr.Title * list Call) :=
  map (fun leaf => (Listr.leaf_title leaf,
                    mutations (trace (Listr.leaf_task leaf) env)))
      (Listr.leaves tasks).

Section Scenario.
Import StopFargateEcsServicesTrick AsyncFacts TaskFacts DiscoveryFacts.

Variables (env : Env) (c s id dim : string).

(** What discovery finds: one cluster [c], one Fargate service [s] in it
    with desired count 3, one scalable target with bounds 1 and 10. *)
Definition described : Service :=
  {| serviceArn := Some s; desiredCount := Some 3; clusterArn := Some c |}.

Definition scalable : ScalableTarget :=
  {| ResourceId := id; ScalableDimension := dim;
     MinCapacity := 1; MaxCapacity := 10 |}.

Definition capturedService : EcsServiceState.t :=
  {| EcsServiceState.arn := s;
     EcsServiceState.desired := 3;
     EcsServiceState.scalableTargets :=
       Some [ {| ScalableTargetState.namespace := "ecs";
                 ScalableTargetState.resourceId := id;
                 ScalableTargetState.scalableDimension := dim;
                 ScalableTargetState.min := 1;
                 ScalableTargetState.max := 10 |} ] |}.

Definition capturedCluster : EcsClusterState.t :=
  {| EcsClusterState.arn := c; EcsClusterState.services := [capturedService] |}.

Hypothesis clusters : env ListClusters = Ok (Some [c]).
Hypothesis listed : env (ListServices c "FARGATE") = Ok (Some [s]).
Hypothesis services : env (DescribeServices [s] c) = Ok (Some [described]).
Hypothesis targets :
  env (DescribeScalableTargets "ecs" [getEcsServiceResourceId c s]
         "ecs:service:DesiredCount") = Ok (Some [scalable]).
Hypothesis cluster_named : c <> "".
Hypothesis service_named : s <> "".
Hypothesis accepting : accepts_mutations env.

Lemma scenario_describeAllServices :
  result (describeAllServices c) env = Ok [described].
Proof.
  unfold describeAllServices, listServices.
  rewrite !result_bind. unfold result at 1, request. cbn [snd].
  rewrite listed. cbn [Js.or_empty]. unfold result at 1. cbn.
  unfold then_, request, result. now rewrite services.
Qed.

Lemma scenario_getServiceState :
  result (getServiceState described) env = Ok capturedService.
Proof.
  rewrite result_getServiceState, result_describeAllScalableTargets.
  cbn [serviceArn desiredCount clusterArn described Js.falsy Js.narrowed].
  apply String.eqb_neq in cluster_named, service_named.
  now rewrite cluster_named, service_named, targets.
Qed.

Lemma scenario_conserve (subListr : Listr.t) :
  result (conserve subListr false) env =
    Ok ([capturedCluster],
        subListr ++ [conserveTask false capturedCluster capturedService]).
Proof.
  rewrite result_conserve, result_listClusters, clusters.
  cbn [Js.or_empty]. rewrite result_getCurrentState. cbn [map].
  rewrite result_getClusterState, scenario_describeAllServices. cbn [map].
  now rewrite scenario_getServiceState.
Qed.

Lemma scenario_conserve_changes :
  changesOf env [conserveTask false capturedCluster capturedService] =
    [ (Listr.Plain "Desired count", [UpdateService c s 0]);
      (Listr.Plain "Auto scaling",
       [RegisterScalableTarget "ecs" (getEcsServiceResourceId c s) dim 0 0]) ].
Proof.
  unfold changesOf.
  cbn [Listr.leaves flat_map Listr.subtasks conserveTask app map
       Listr.leaf_title Listr.leaf_task].
  rewrite conserveService_trace, conserveScalableTargets_trace by assumption.
  change (EcsServiceState.desired capturedService >? 0) with true. cbv iota.
  rewrite mutations_app. now destruct (is_ok _).
Qed.

Lemma scenario_restore_changes :
  changesOf env [restoreTask false capturedCluster capturedService] =
    [ (Listr.Plain "Desired count", [UpdateService c s 3]);
      (Listr.Plain "Auto scaling",
       [RegisterScalableTarget "ecs" (getEcsServiceResourceId c s) dim 1 10]) ].
Proof.
  unfold changesOf.
  cbn [Listr.leaves flat_map Listr.subtasks restoreTask app map
       Listr.leaf_title Listr.leaf_task].
  rewrite restoreService_mutations, restoreScalableTargets_trace by assumption.
  reflexivity.
Qed.

(** C7.  The round trip of the scenario.  Discovery reports one service
    with desired count 3 and one scalable target with bounds 1 and 10, and
    the provider accepts the mutating requests.  With [dryRun] false,
    [conserve] captures desired 3 and the target's bounds 1 and 10, and the
    leaves of the tasks it adds set the desired count to 0 and register the
    target with capacities 0 and 0; the leaves of the tasks that [restore]
    adds for that state set the desired count to 3 and register the target
    with capacities 1 and 10. *)
Theorem scenario_round_trip (subListr : Listr.t) :
  (exists added,
      result (conserve subListr false) env =
        Ok ([capturedCluster], subListr ++ added)
      /\ changesOf env added =
         [ (Listr.Plain "Desired count", [UpdateService c s 0]);
           (Listr.Plain "Auto scaling",
            [RegisterScalableTarget "ecs" (getEcsServiceResourceId c s) dim 0 0]) ])
  /\ (exists added,
        result (restore subListr false [capturedCluster]) env =
          Ok (subListr ++ added)
        /\ changesOf env added =
           [ (Listr.Plain "Desired count", [UpdateService c s 3]);
             (Listr.Plain "Auto scaling",
              [RegisterScalableTarget "ecs" (getEcsServiceResourceId c s) dim 1 10]) ]).
Proof.
  split.
  - exists [conserveTask false capturedCluster capturedService].
    split; [apply scenario_conserve | apply scenario_conserve_changes].
  - exists [restoreTask false capturedCluster capturedService].
    split; [reflexivity | apply scenario_restore_changes].
Qed.

End Scenario.

Lemma scenario_round_trip_witness :
  let env := Sample.account [Sample.web 3] [Sample.target 1 10] in
  let c := Sample.clusterArn in
  let s := Sample.serviceArn in
  let id := "service/main/web" in
  let dim := Sample.dimension in
  let cluster := capturedCluster c s id dim in
  env ListClusters = Ok (Some [c])
  /\ env (ListServices c "FARGATE") = Ok (Some [s])
  /\ env (DescribeServices [s] c) = Ok (Some [described c s])
  /\ env (DescribeScalableTargets "ecs"
            [StopFargateEcsServicesTrick.getEcsServiceResourceId c s]
            "ecs:service:DesiredCount") = Ok (Some [scalable id dim])
  /\ c <> "" /\ s <> "" /\ accepts_mutations env
  /\ (exists added,
        result (StopFargateEcsServicesTrick.conserve [] false) env =
          Ok ([cluster], [] ++ added)
        /\ changesOf env added =
           [ (Listr.Plain "Desired count", [UpdateService c s 0]);
             (Listr.Plain "Auto scaling",
              [RegisterScalableTarget "ecs" "service/main/web" dim 0 0]) ])
  /\ (exists added,
        result (StopFargateEcsServicesTrick.restore [] false [cluster]) env =
          Ok ([] ++ added)
        /\ changesOf env added =
           [ (Listr.Plain "Desired count", [UpdateService c s 3]);
             (Listr.Plain "Auto scaling",
              [RegisterScalableTarget "ecs" "service/main/web" dim 1 10]) ]).
Proof.
  cbv zeta.
  split; [reflexivity|]. split; [reflexivity|]. split; [reflexivity|].
  split; [reflexivity|]. split; [discriminate|]. split; [discriminate|].
  split; [apply account_accepts|].
  exact (scenario_round_trip
           (Sample.account [Sample.web 3] [Sample.target 1 10])
           Sample.clusterArn Sample.serviceArn
           "service/main/web" Sample.dimension
           eq_refl eq_refl eq_refl eq_refl
           ltac:(discriminate) ltac:(discriminate)
           (account_accepts _ _) []).
Defined.

(* ===================================================================== *)
(** ** The registry *)
(* ===================================================================== *)

Section RegistryFacts.
Import TrickRegistry.

Lemma all_register (r : TrickRegistry.t) (tricks : list TrickInterface.t) :
  all (register r tricks) = all r ++ tricks.
Proof. reflexivity. Qed.

Lemma all_registerAll (calls : list (list TrickInterface.t)) :
  forall r, all (registerAll r calls) = all r ++ List.concat calls.
Proof.
  unfold registerAll.
  induction calls as [| tricks rest IH]; intros r; simpl.
  - symmetry. apply app_nil_r.
  - rewrite IH, all_register. now rewrite app_assoc.
Qed.

(** X17.  [register] appends and rejects nothing.  From any registry and
    for any sequence of [register] calls, with any number of tricks each,
    [all()] is what it was before followed by the registered tricks in
    registration order; on a new registry its length is the number of
    tricks registered.  A trick registered twice is listed twice: the
    registry does not compare machine names. *)
Theorem register_appends_in_order
    (r : TrickRegistry.t) (calls : list (list TrickInterface.t))
    (trick : TrickInterface.t) :
  all (registerAll r calls) = all r ++ List.concat calls
  /\ all (registerAll new calls) = List.concat calls
  /\ List.length (all (registerAll new calls)) =
     list_sum (map (@List.length _) calls)
  /\ all (registerAll r [[trick]; [trick]]) = all r ++ [trick; trick].
Proof.
  assert (Hall : all (registerAll new calls) = List.concat calls)
    by apply all_registerAll.
  split; [apply all_registerAll|]. split; [exact Hall|].
  split; [rewrite Hall; apply length_concat|].
  now rewrite all_registerAll.
Qed.

(** What the source fixes of the registry that [initialize] builds: seven
    entries in the order written, the Fargate ECS trick first.  Whether two
    of them share a machine name is decided by the six classes that are
    not among the sources: the names are all different exactly when the
    names of those six are different from each other and from
    'stop-fargate-ecs-services'. *)
Lemma initialize_registers_seven
    (rds ec2 dynamodb gateways redis kinesis : TrickInterface.t) :
  all (initialize rds ec2 dynamodb gateways redis kinesis) =
    [StopFargateEcsServicesTrick.trick; rds; ec2; dynamodb; gateways; redis; kinesis]
  /\ (NoDup (machineNames (initialize rds ec2 dynamodb gateways redis kinesis)) <->
      ~ In "stop-fargate-ecs-services"
           (map TrickInterface.getMachineName
                [rds; ec2; dynamodb; gateways; redis; kinesis])
      /\ NoDup (map TrickInterface.getMachineName
                    [rds; ec2; dynamodb; gateways; redis; kinesis])).
Proof. split; [reflexivity|]. apply NoDup_cons_iff. Qed.

End RegistryFacts.

(* ===================================================================== *)
(** ** Addressing a scalable target *)
(* ===================================================================== *)

Section Addressing.
Import StopFargateEcsServicesTrick AsyncFacts TaskFacts ResourceId.

Lemma target_keys {A : Type} (call : A -> Call) (key : A -> string * string * string)
    (xs : list A) :
  (forall x, target_key (call x) = [key x]) ->
  flat_map target_key (map call xs) = map key xs.
Proof.
  intros H. induction xs as [| x rest IH]; [reflexivity|].
  simpl. now rewrite H, IH.
Qed.

(** C10.  The resource identifier of a service is "service/", the last
    '/'-separated segment of the cluster ARN, "/", the last '/'-separated
    segment of the service ARN.  Every scalable-target request that
    conserve and restore build for a captured service names exactly that
    identifier, the describe request of discovery names the one of the
    described service's own ARNs, and the targets zeroed by conserve are
    the targets registered again by restore: same namespace, same
    identifier, same dimension, in the same order. *)
Theorem scalable_target_requests_name_the_service
    (env : Env) (dryRun : bool)
    (cluster : EcsClusterState.t) (service : EcsServiceState.t)
    (described : Service) :
  accepts_mutations env ->
  let id := ("service/" ++ last_segment (EcsClusterState.arn cluster) ++ "/"
             ++ last_segment (EcsServiceState.arn service))%string in
  getEcsServiceResourceId (EcsClusterState.arn cluster) (EcsServiceState.arn service) = id
  /\ every (addresses id) (conserveScalableTargets dryRun cluster service)
  /\ every (addresses id) (restoreScalableTargets dryRun cluster service)
  /\ every (addresses ("service/" ++ last_segment (Js.narrowed (clusterArn described))
                       ++ "/" ++ last_segment (Js.narrowed (serviceArn described)))%string)
           (describeAllScalableTargets described)
  /\ flat_map target_key
       (mutations (trace (conserveScalableTargets false cluster service) env)) =
     flat_map target_key
       (mutations (trace (restoreScalableTargets false cluster service) env)).
Proof.
  intros Henv id.
  assert (Hid : getEcsServiceResourceId (EcsClusterState.arn cluster)
                  (EcsServiceState.arn service) = id)
    by apply resource_id_segments.
  split; [exact Hid|]. split; [|split; [|split]].
  - unfold conserveScalableTargets. repeat apply every_if; try now apply every_skip.
    apply every_for_of. intros target _. apply every_request. simpl.
    rewrite Hid. now constructor.
  - unfold restoreScalableTargets. apply every_if; [now apply every_skip|].
    apply every_for_of. intros target _. apply every_if; [now apply every_skip|].
    apply every_request. simpl. rewrite Hid. now constructor.
  - unfold describeAllScalableTargets. repeat apply every_if; try apply every_throw.
    apply every_bind; [|intros; apply every_ret].
    apply every_request. simpl. rewrite resource_id_segments. now constructor.
  - rewrite conserveScalableTargets_trace, restoreScalableTargets_trace by assumption.
    destruct (noScalableTargets _); [reflexivity|].
    rewrite !mutations_requests by reflexivity.
    rewrite (target_keys (conserveCall cluster service)
               (fun t => (ScalableTargetState.namespace t,
                          getEcsServiceResourceId (EcsClusterState.arn cluster)
                                                  (EcsServiceState.arn service),
                          ScalableTargetState.scalableDimension t)))
      by reflexivity.
    now rewrite (target_keys (restoreCall cluster service)
               (fun t => (ScalableTargetState.namespace t,
                          getEcsServiceResourceId (EcsClusterState.arn cluster)
                                                  (EcsServiceState.arn service),
                          ScalableTargetState.scalableDimension t)))
      by reflexivity.
Qed.

Lemma scalable_target_requests_name_the_service_witness :
  accepts_mutations (Sample.account [Sample.web 3] [Sample.target 1 10])
  /\ StopFargateEcsServicesTrick.getEcsServiceResourceId
       Sample.clusterArn Sample.serviceArn = "service/main/web"
  /\ flat_map target_key
       (mutations (trace (conserveScalableTargets false
                            (Sample.clusterState [])
                            (Sample.serviceState 3 [Sample.capturedTarget 1 10]))
                         (Sample.account [Sample.web 3] [Sample.target 1 10]))) =
     flat_map target_key
       (mutations (trace (restoreScalableTargets false
                            (Sample.clusterState [])
                            (Sample.serviceState 3 [Sample.capturedTarget 1 10]))
                         (Sample.account [Sample.web 3] [Sample.target 1 10]))).
Proof.
  split; [apply account_accepts|].
  destruct (scalable_target_requests_name_the_service
              (Sample.account [Sample.web 3] [Sample.target 1 10]) false
              (Sample.clusterState [])
              (Sample.serviceState 3 [Sample.capturedTarget 1 10])
              (Sample.web 3) (account_accepts _ _))
    as (Hid & _ & _ & _ & Hkeys).
  split; [exact Hid | exact Hkeys].
Defined.

End Addressing.

(* ===================================================================== *)
(** ** Loops of requests and rejections *)
(* ===================================================================== *)

Module LoopFacts.
Import StopFargateEcsServicesTrick AsyncFacts TaskFacts.

(** The requests of a list that are dispatched when they are sent one
    after the other and the first rejection ends the sending. *)
Fixpoint until_rejected (env : Env) (calls : list Call) : list Call :=
  match calls with
  | [] => []
  | c :: rest => c :: (if is_ok (env c) then until_rejected env rest else [])
  end.

Definition all_accepted (env : Env) (calls : list Call) : bool :=
  forallb (fun c => is_ok (env c)) calls.

Lemma until_rejected_accepted env calls :
  all_accepted env calls = true -> until_rejected env calls = calls.
Proof.
  induction calls as [| c rest IH]; [reflexivity|]. simpl.
  intros H. apply andb_true_iff in H as [Hc Hrest].
  now rewrite Hc, IH.
Qed.

(** A loop whose body sends one request per element and fails when the
    request does. *)
Lemma for_of_until_rejected {A : Type} (xs : list A) (body : A -> Async.t unit)
    (call : A -> Call) (env : Env) :
  (forall x, trace (body x) env = [Ev (Request (call x))] /\
             is_ok (result (body x) env) = is_ok (env (call x))) ->
  dispatched (trace (for_of xs body) env) = until_rejected env (map call xs)
  /\ events (trace (for_of xs body) env) =
     map Request (until_rejected env (map call xs))
  /\ is_ok (result (for_of xs body) env) = all_accepted env (map call xs).
Proof.
  intros Hbody. induction xs as [| x rest IH]; [repeat split|].
  destruct (Hbody x) as [Htrace Hok].
  cbn [for_of]. rewrite trace_bind, result_bind, dispatched_app, events_app, Htrace.
  cbn [map until_rejected all_accepted forallb]. fold (all_accepted env (map call rest)).
  rewrite <- Hok. destruct IH as (IHd & IHe & IHr).
  destruct (result (body x) env) as [[] | e]; cbn [is_ok andb].
  - rewrite IHd, IHe, IHr. repeat split.
  - repeat split.
Qed.

Lemma register_body env ns id dim lo hi :
  trace (request (RegisterScalableTarget ns id dim lo hi)) env =
    [Ev (Request (RegisterScalableTarget ns id dim lo hi))]
  /\ is_ok (result (request (RegisterScalableTarget ns id dim lo hi)) env) =
     is_ok (env (RegisterScalableTarget ns id dim lo hi)).
Proof. split; reflexivity. Qed.

Lemma skips_of_requests (calls : list Call) (tr : Trace) :
  events tr = map Request calls -> skips tr = [].
Proof.
  unfold skips. intros ->. induction calls as [| c rest IH]; [reflexivity|].
  exact IH.
Qed.

Definition targetsOf (service : EcsServiceState.t) : list ScalableTargetState.t :=
  Js.or_empty (EcsServiceState.scalableTargets service).

(** X9.  What the two conserve leaves send, whatever the provider answers:
    the desired-count leaf sends one update to zero exactly when [dryRun]
    is false and the captured count is positive (a count of zero or below
    is never updated); the auto-scaling leaf, when [dryRun] is false,
    registers the captured targets with capacities 0 and 0 in order, up to
    and including the first registration the provider rejects, and it
    resolves exactly when every registration is accepted. *)
Theorem conserve_leaves_zero_the_service
    (env : Env) (dryRun : bool)
    (cluster : EcsClusterState.t) (service : EcsServiceState.t) :
  dispatched (trace (conserveService dryRun cluster service) env) =
    (if negb dryRun && (EcsServiceState.desired service >? 0)
     then [updateCall cluster service 0] else [])
  /\ dispatched (trace (conserveScalableTargets dryRun cluster service) env) =
     (if dryRun then []
      else until_rejected env (map (conserveCall cluster service) (targetsOf service)))
  /\ is_ok (result (conserveScalableTargets dryRun cluster service) env) =
     dryRun || all_accepted env (map (conserveCall cluster service) (targetsOf service)).
Proof.
  split.
  { rewrite conserveService_trace.
    destruct dryRun; [reflexivity|]. cbn [negb andb].
    destruct (EcsServiceState.desired service >? 0); [|reflexivity].
    rewrite dispatched_app. now destruct (is_ok (env _)). }
  unfold conserveScalableTargets, targetsOf.
  destruct (noScalableTargets _) eqn:Hnone.
  { rewrite (noScalableTargets_or_empty _ Hnone). destruct dryRun; split; reflexivity. }
  destruct dryRun; [split; reflexivity|].
  destruct (for_of_until_rejected
              (Js.or_empty (EcsServiceState.scalableTargets service))
              (fun target => request (conserveCall cluster service target))
              (conserveCall cluster service) env) as (Hd & _ & Hr).
  { intros target. apply register_body. }
  split; [exact Hd | exact Hr].
Qed.

(** X10.  What the auto-scaling leaf of restore sends, whatever the provider
    answers: with [dryRun] false it registers the captured targets with
    their captured bounds in order, up to and including the first
    registration the provider rejects (the targets after it are left as
    they are), and it resolves exactly when every registration is
    accepted; with [dryRun] true it sends nothing and resolves. *)
Theorem restore_stops_at_first_rejected_registration
    (env : Env) (dryRun : bool)
    (cluster : EcsClusterState.t) (service : EcsServiceState.t) :
  dispatched (trace (restoreScalableTargets dryRun cluster service) env) =
    (if dryRun then []
     else until_rejected env (map (restoreCall cluster service) (targetsOf service)))
  /\ is_ok (result (restoreScalableTargets dryRun cluster service) env) =
     dryRun || all_accepted env (map (restoreCall cluster service) (targetsOf service)).
Proof.
  destruct dryRun.
  { split.
    - unfold dispatched. rewrite restoreScalableTargets_dry_trace.
      destruct (noScalableTargets _); [reflexivity|].
      induction (Js.or_empty _) as [| t l IH]; [reflexivity | exact IH].
    - unfold restoreScalableTargets, result.
      destruct (noScalableTargets _); [reflexivity|].
      erewrite for_of_skips; reflexivity. }
  unfold restoreScalableTargets, targetsOf.
  destruct (noScalableTargets _) eqn:Hnone.
  { rewrite (noScalableTargets_or_empty _ Hnone). split; reflexivity. }
  destruct (for_of_until_rejected
              (Js.or_empty (EcsServiceState.scalableTargets service))
              (fun target => request (restoreCall cluster service target))
              (restoreCall cluster service) env) as (Hd & _ & Hr).
  { intros target. apply register_body. }
  split; [exact Hd | exact Hr].
Qed.

(** X11.  A rejected update ends the desired-count leaf: when [dryRun] is
    false, the captured count is positive and the provider rejects the
    update, the leaf is rejected with the provider's error right after the
    request; no wait request is built and neither the waiting nor the final
    output is recorded.  This holds of conserve and of restore. *)
Theorem rejected_update_rejects_the_leaf
    (env : Env) (cluster : EcsClusterState.t) (service : EcsServiceState.t)
    (e e' : Error) :
  (EcsServiceState.desired service >? 0) = true ->
  env (updateCall cluster service 0) = Rejected e ->
  env (updateCall cluster service (EcsServiceState.desired service)) = Rejected e' ->
  conserveService false cluster service env =
    ([ Ev (Output "Updating desired count to zero...");
       Ev (Request (updateCall cluster service 0)) ],
     Rejected e)
  /\ restoreService false cluster service env =
     ([ Ev (Output ("Updating desired count to "
                    ++ Js.number_to_string (EcsServiceState.desired service)
                    ++ "...")%string);
        Ev (Request (updateCall cluster service (EcsServiceState.desired service))) ],
      Rejected e').
Proof.
  intros Hpositive Hzero Hback. unfold updateCall in Hzero, Hback.
  unfold conserveService, restoreService. rewrite Hpositive.
  cbn [bind ret Monad_Async]. unfold then_, output, request.
  rewrite Hzero, Hback. split; reflexivity.
Qed.

Lemma rejected_update_rejects_the_leaf_witness :
  let env := Sample.readOnly (Sample.account [Sample.web 3] []) in
  let cluster := Sample.clusterState [] in
  let service := Sample.serviceState 3 [] in
  (EcsServiceState.desired service >? 0) = true
  /\ env (updateCall cluster service 0) = Rejected (AwsError "AccessDeniedException")
  /\ env (updateCall cluster service 3) = Rejected (AwsError "AccessDeniedException")
  /\ conserveService false cluster service env =
     ([ Ev (Output "Updating desired count to zero...");
        Ev (Request (updateCall cluster service 0)) ],
      Rejected (AwsError "AccessDeniedException")).
Proof.
  cbv zeta. split; [reflexivity|]. split; [reflexivity|]. split; [reflexivity|].
  exact (proj1 (rejected_update_rejects_the_leaf
                  (Sample.readOnly (Sample.account [Sample.web 3] []))
                  (Sample.clusterState []) (Sample.serviceState 3 [])
                  (AwsError "AccessDeniedException")
                  (AwsError "AccessDeniedException")
                  eq_refl eq_refl eq_refl)).
Defined.

(** X12.  The skips of the auto-scaling leaves, whatever the provider
    answers.  A service without captured targets (the field missing or the
    list empty) is reported as 'No scalable targets defined', under dry-run
    too.  Otherwise, under dry-run conserve reports one skip for the
    service whereas restore reports one skip per captured target; without
    dry-run neither reports a skip. *)
Theorem auto_scaling_skips
    (env : Env) (dryRun : bool)
    (cluster : EcsClusterState.t) (service : EcsServiceState.t) :
  skips (trace (conserveScalableTargets dryRun cluster service) env) =
    (if noScalableTargets (EcsServiceState.scalableTargets service)
     then ["No scalable targets defined"]
     else if dryRun then ["Skipped due to dry-run"] else [])
  /\ skips (trace (restoreScalableTargets dryRun cluster service) env) =
     (if noScalableTargets (EcsServiceState.scalableTargets service)
      then ["No scalable targets defined"]
      else if dryRun
           then repeat "Skipped due to dry-run" (List.length (targetsOf service))
           else []).
Proof.
  split.
  - unfold conserveScalableTargets.
    destruct (noScalableTargets _); [reflexivity|].
    destruct dryRun; [reflexivity|].
    destruct (for_of_until_rejected
                (Js.or_empty (EcsServiceState.scalableTargets service))
                (fun target => request (conserveCall cluster service target))
                (conserveCall cluster service) env) as (_ & He & _).
    { intros target. apply register_body. }
    exact (skips_of_requests _ _ He).
  - destruct dryRun.
    + rewrite restoreScalableTargets_dry_trace. unfold targetsOf.
      destruct (noScalableTargets _); [reflexivity|].
      induction (Js.or_empty _) as [| t l IH]; [reflexivity|].
      change (map (fun _ => Ev (Skip "Skipped due to dry-run")) (t :: l))
        with ([Ev (Skip "Skipped due to dry-run")]
              ++ map (fun _ => Ev (Skip "Skipped due to dry-run")) l).
      rewrite skips_app, IH. reflexivity.
    + unfold restoreScalableTargets.
      destruct (noScalableTargets _); [reflexivity|].
      destruct (for_of_until_rejected
                  (Js.or_empty (EcsServiceState.scalableTargets service))
                  (fun target => request (restoreCall cluster service target))
                  (restoreCall cluster service) env) as (_ & He & _).
      { intros target. apply register_body. }
      exact (skips_of_requests _ _ He).
Qed.

End LoopFacts.

(* ===================================================================== *)
(** ** Describing the services of a cluster *)
(* ===================================================================== *)

Module DescribeFacts.
Import StopFargateEcsServicesTrick AsyncFacts TaskFacts DiscoveryFacts JsFacts.

(** What the provider describes for one chunk of ARNs. *)
Definition describedFor (env : Env) (clusterArn : string) (chunk : list string)
    : list Service :=
  match env (DescribeServices chunk clusterArn) with
  | Ok response => Js.or_empty response
  | Rejected _ => []
  end.

Lemma describeChunks_accepted env clusterArn chunks :
  (forall chunk, is_ok (env (DescribeServices chunk clusterArn)) = true) ->
  forall result,
    describeChunks clusterArn chunks result env =
    (map (fun chunk => Ev (Request (DescribeServices chunk clusterArn))) chunks,
     Ok (result ++ flat_map (describedFor env clusterArn) chunks)).
Proof.
  intros Haccepted.
  induction chunks as [| chunk rest IH]; intros result.
  - simpl. unfold pure. now rewrite app_nil_r.
  - cbn [describeChunks bind Monad_Async]. unfold then_, request.
    pose proof (Haccepted chunk) as Hchunk. cbn [flat_map].
    unfold describedFor at 1.
    destruct (env (DescribeServices chunk clusterArn)) as [response |];
      [|discriminate].
    rewrite IH. cbn [map app]. now rewrite app_assoc.
Qed.

Lemma dispatched_requests (calls : list Call) :
  dispatched (map (fun c => Ev (Request c)) calls) = calls.
Proof.
  unfold dispatched, events.
  induction calls as [| c rest IH]; [reflexivity|]. simpl. now rewrite IH.
Qed.

(** X1.  [describeAllServices] asks for the listed services in groups of at
    most ten.  When the provider answers the list request and every
    describe request, the requests sent are the list request (launch type
    FARGATE) followed by one describe request per chunk; the chunks are not
    empty, hold at most ten ARNs each and, put end to end, are the listed
    ARNs in order (each listed service is asked about exactly once); the
    result is what the provider described, chunk after chunk. *)
Theorem describeAllServices_asks_each_listed_service_once
    (env : Env) (clusterArn : string) (response : option (list string)) :
  env (ListServices clusterArn "FARGATE") = Ok response ->
  (forall chunk, is_ok (env (DescribeServices chunk clusterArn)) = true) ->
  let chunks := Js.chunk (Js.or_empty response) 10 in
  dispatched (trace (describeAllServices clusterArn) env) =
    ListServices clusterArn "FARGATE"
    :: map (fun chunk => DescribeServices chunk clusterArn) chunks
  /\ List.concat chunks = Js.or_empty response
  /\ Forall (fun chunk => (1 <= List.length chunk <= 10)%nat) chunks
  /\ result (describeAllServices clusterArn) env =
     Ok (flat_map (describedFor env clusterArn) chunks).
Proof.
  intros Hlist Haccepted chunks.
  assert (Hrun : describeAllServices clusterArn env =
                 (Ev (Request (ListServices clusterArn "FARGATE"))
                  :: map (fun chunk => Ev (Request (DescribeServices chunk clusterArn)))
                         chunks,
                  Ok (flat_map (describedFor env clusterArn) chunks))).
  { unfold describeAllServices, listServices.
    cbn [bind ret Monad_Async]. unfold then_ at 1. unfold then_ at 1.
    unfold request at 1. rewrite Hlist. unfold pure at 1. cbn [app].
    fold chunks. now rewrite (describeChunks_accepted env clusterArn chunks Haccepted). }
  unfold trace, result. rewrite Hrun. cbn [fst snd].
  split.
  { pose proof (dispatched_requests
                  (ListServices clusterArn "FARGATE"
                   :: map (fun chunk => DescribeServices chunk clusterArn) chunks))
      as H.
    cbn [map] in H. rewrite map_map in H. exact H. }
  split; [apply chunk_concat|]. split; [|reflexivity].
  apply chunk_fuel_sizes.
Qed.

Lemma describeAllServices_asks_each_listed_service_once_witness :
  let env := Sample.account (repeat (Sample.web 1) 11) [] in
  env (ListServices Sample.clusterArn "FARGATE") =
    Ok (Some (repeat Sample.serviceArn 11))
  /\ (forall chunk, is_ok (env (DescribeServices chunk Sample.clusterArn)) = true)
  /\ dispatched (trace (describeAllServices Sample.clusterArn) env) =
     [ ListServices Sample.clusterArn "FARGATE";
       DescribeServices (repeat Sample.serviceArn 10) Sample.clusterArn;
       DescribeServices [Sample.serviceArn] Sample.clusterArn ].
Proof.
  cbv zeta. split; [reflexivity|]. split; [reflexivity|].
  exact (proj1 (describeAllServices_asks_each_listed_service_once
                  (Sample.account (repeat (Sample.web 1) 11) [])
                  Sample.clusterArn (Some (repeat Sample.serviceArn 11))
                  eq_refl (fun _ => eq_refl))).
Defined.

(** An account in which no cluster is listed. *)
Definition withoutClusters (env : Env) : Env :=
  fun c =>
    match c as c0 return Result (reply c0) with
    | ListClusters => Ok None
    | c0 => env c0
    end.

(** X2.  No cluster.  When the provider lists no cluster (the field missing
    or the list empty), [conserve] sends the list request and nothing else,
    resolves to the empty state and leaves [subListr] as it is. *)
Theorem no_cluster_nothing_added
    (env : Env) (subListr : Listr.t) (dryRun : bool)
    (clusters : option (list string)) :
  env ListClusters = Ok clusters ->
  Js.or_empty clusters = [] ->
  dispatched (trace (conserve subListr dryRun) env) = [ListClusters]
  /\ result (conserve subListr dryRun) env = Ok ([], subListr).
Proof.
  intros Hlist Hclusters. unfold conserve, listClusters, trace, result.
  cbn [bind ret Monad_Async]. unfold then_, request. rewrite Hlist.
  unfold pure. rewrite Hclusters. split; reflexivity.
Qed.

Lemma no_cluster_nothing_added_witness :
  let env := withoutClusters (Sample.account [Sample.web 3] []) in
  env ListClusters = Ok None
  /\ Js.or_empty (@None (list string)) = []
  /\ dispatched (trace (conserve [] false) env) = [ListClusters]
  /\ result (conserve [] false) env = Ok ([], []).
Proof.
  cbv zeta. split; [reflexivity|]. split; [reflexivity|].
  exact (no_cluster_nothing_added
           (withoutClusters (Sample.account [Sample.web 3] [])) [] false None
           eq_refl eq_refl).
Defined.

(** X3.  No service.  When the provider lists no Fargate service for a
    cluster (the field missing or the list empty), no describe request is
    sent for that cluster and the cluster is captured with no service: the
    cluster stays in the state, and no task is added for it. *)
Theorem no_service_empty_entry
    (env : Env) (clusterArn : string) (services : option (list string)) :
  env (ListServices clusterArn "FARGATE") = Ok services ->
  Js.or_empty services = [] ->
  dispatched (trace (getClusterState clusterArn) env) =
    [ListServices clusterArn "FARGATE"]
  /\ result (getClusterState clusterArn) env =
     Ok {| EcsClusterState.arn := clusterArn; EcsClusterState.services := [] |}
  /\ forall mk subListr,
       addTasks mk
         [{| EcsClusterState.arn := clusterArn; EcsClusterState.services := [] |}]
         subListr = subListr.
Proof.
  intros Hlist Hservices.
  unfold getClusterState, describeAllServices, listServices, trace, result.
  cbn [bind ret Monad_Async]. unfold then_, request. rewrite Hlist.
  unfold pure. rewrite Hservices. repeat split.
Qed.

Lemma no_service_empty_entry_witness :
  let env := Sample.account [] [] in
  env (ListServices Sample.clusterArn "FARGATE") = Ok (Some [])
  /\ Js.or_empty (Some (@nil string)) = []
  /\ dispatched (trace (getClusterState Sample.clusterArn) env) =
     [ListServices Sample.clusterArn "FARGATE"]
  /\ result (getClusterState Sample.clusterArn) env =
     Ok (Sample.clusterState []).
Proof.
  cbv zeta. split; [reflexivity|]. split; [reflexivity|].
  destruct (no_service_empty_entry
              (Sample.account [] []) Sample.clusterArn (Some [])
              eq_refl eq_refl) as (Hsent & Hresult & _).
  split; [exact Hsent | exact Hresult].
Defined.

(** *** When discovery goes through *)

Lemma all_results_is_ok {A : Type} (rs : list (Result A)) :
  is_ok (all_results rs) = forallb is_ok rs.
Proof.
  induction rs as [| r rest IH]; [reflexivity|]. simpl.
  destruct r as [a | e]; [|reflexivity]. simpl.
  rewrite <- IH. now destruct (all_results rest).
Qed.

Lemma forallb_is_ok {A B : Type} (f : A -> Result B) (g : A -> bool) (l : list A) :
  (forall x, is_ok (f x) = g x) ->
  forallb is_ok (map f l) = forallb g l.
Proof.
  intros H. induction l as [| x rest IH]; [reflexivity|].
  simpl. now rewrite H, IH.
Qed.

Lemma getServiceState_is_ok env service :
  is_ok (result (getServiceState service) env) = service_ok env service.
Proof.
  rewrite result_getServiceState, result_describeAllScalableTargets.
  unfold service_ok.
  destruct (serviceArn service) as [arn |]; [|reflexivity].
  destruct (desiredCount service) as [desired |];
    [|cbn; now rewrite andb_false_r].
  destruct (Js.falsy (clusterArn service)).
  { cbn [negb]. now rewrite andb_false_r. }
  destruct (Js.falsy (Some arn)); [reflexivity|].
  cbn [negb andb]. now destruct (env _).
Qed.

Lemma getClusterState_is_ok env clusterArn :
  is_ok (result (getClusterState clusterArn) env) = cluster_ok env clusterArn.
Proof.
  rewrite result_getClusterState. unfold cluster_ok.
  destruct (result (describeAllServices clusterArn) env) as [services |];
    [|reflexivity].
  rewrite <- (forallb_is_ok (fun s => result (getServiceState s) env)
                (service_ok env) services (getServiceState_is_ok env)).
  rewrite <- all_results_is_ok. now destruct (all_results _).
Qed.

(** X4.  [conserve] resolves exactly when discovery goes through: the
    provider answers the list-clusters request and, for every listed
    cluster, the list and describe requests, and every described service
    carries a non-empty [serviceArn], a [desiredCount] and a non-empty
    [clusterArn] and has its scalable targets described.  In every other
    case [conserve] is rejected and returns no state. *)
Theorem conserve_resolves_iff_discovery_goes_through
    (env : Env) (subListr : Listr.t) (dryRun : bool) :
  is_ok (result (conserve subListr dryRun) env) = discovery_ok env.
Proof.
  rewrite result_conserve, result_listClusters. unfold discovery_ok.
  destruct (env ListClusters) as [response |]; [|reflexivity].
  rewrite result_getCurrentState.
  rewrite <- (forallb_is_ok (fun c => result (getClusterState c) env)
                (cluster_ok env) (Js.or_empty response) (getClusterState_is_ok env)).
  rewrite <- all_results_is_ok. now destruct (all_results _).
Qed.

End DescribeFacts.

(* ===================================================================== *)
(** ** From what was described to what is put back *)
(* ===================================================================== *)

Module RoundTrip.
Import StopFargateEcsServicesTrick AsyncFacts TaskFacts DiscoveryFacts.

(** The registration that puts a described target back on a service. *)
Definition registration (cluster : EcsClusterState.t) (entry : EcsServiceState.t)
    (target : ScalableTarget) : Call :=
  RegisterScalableTarget "ecs"
    (getEcsServiceResourceId (EcsClusterState.arn cluster) (EcsServiceState.arn entry))
    (ScalableDimension target) (MinCapacity target) (MaxCapacity target).

(** Restoring [entry] asks for the desired count and for the target bounds
    that the provider reported when [described] was discovered. *)
Definition putsBack (env : Env) (cluster : EcsClusterState.t)
    (described : Service) (entry : EcsServiceState.t) : Prop :=
  exists desired response,
    serviceArn described = Some (EcsServiceState.arn entry)
    /\ desiredCount described = Some desired
    /\ env (DescribeScalableTargets "ecs"
              [getEcsServiceResourceId (Js.narrowed (clusterArn described))
                                       (EcsServiceState.arn entry)]
              "ecs:service:DesiredCount") = Ok response
    /\ mutations (trace (restoreService false cluster entry) env) =
       (if desired >? 0
        then [UpdateService (EcsClusterState.arn cluster) (EcsServiceState.arn entry) desired]
        else [])
    /\ mutations (trace (restoreScalableTargets false cluster entry) env) =
       map (registration cluster entry) (Js.or_empty response).

Lemma captured_service_is_put_back env cluster described entry :
  accepts_mutations env ->
  result (getServiceState described) env = Ok entry ->
  putsBack env cluster described entry.
Proof.
  intros Henv. rewrite result_getServiceState, result_describeAllScalableTargets.
  destruct (serviceArn described) as [arn |] eqn:Harn; [|discriminate].
  destruct (desiredCount described) as [desired |] eqn:Hdesired; [|discriminate].
  destruct (Js.falsy (clusterArn described)); [discriminate|].
  destruct (Js.falsy (Some arn)); [discriminate|].
  cbn [Js.narrowed].
  destruct (env (DescribeScalableTargets _ _ _)) as [response |] eqn:Hresponse;
    [|discriminate].
  intros H. injection H as <-. exists desired, response.
  cbn [EcsServiceState.arn].
  split; [exact Harn|]. split; [exact Hdesired|]. split; [exact Hresponse|]. split.
  - now rewrite restoreService_mutations.
  - rewrite restoreScalableTargets_trace by assumption.
    cbn [EcsServiceState.scalableTargets Js.or_empty noScalableTargets].
    rewrite length_map.
    destruct (Js.or_empty response) as [| target targets]; [reflexivity|].
    cbn [List.length Nat.eqb].
    rewrite mutations_requests by reflexivity. now rewrite map_map.
Qed.

Lemma captured_services_are_put_back env cluster services states :
  accepts_mutations env ->
  all_results (map (fun s => result (getServiceState s) env) services) = Ok states ->
  Forall2 (putsBack env cluster) services states.
Proof.
  intros Henv. revert states.
  induction services as [| service rest IH]; intros states H.
  - simpl in H. injection H as <-. constructor.
  - apply all_results_ok in H. destruct states as [| entry states]; [discriminate|].
    cbn [map] in H. injection H as Hentry Hrest.
    constructor.
    + now apply captured_service_is_put_back.
    + apply IH. now apply all_results_ok.
Qed.

(** Every service of a cluster entry is put back as it was described. *)
Definition putBack (env : Env) (cluster : EcsClusterState.t) : Prop :=
  exists services,
    result (describeAllServices (EcsClusterState.arn cluster)) env = Ok services /\
    Forall2 (putsBack env cluster) services (EcsClusterState.services cluster).

Lemma captured_clusters_are_put_back env clustersArn state :
  accepts_mutations env ->
  all_results (map (fun c => result (getClusterState c) env) clustersArn) = Ok state ->
  Forall (putBack env) state.
Proof.
  intros Henv. revert state.
  induction clustersArn as [| c rest IH]; intros state H.
  - simpl in H. injection H as <-. constructor.
  - apply all_results_ok in H. destruct state as [| cluster state]; [discriminate|].
    cbn [map] in H. injection H as Hcluster Hrest.
    apply all_results_ok in Hrest. constructor; [|now apply IH].
    rewrite result_getClusterState in Hcluster.
    destruct (result (describeAllServices c) env) as [services |] eqn:Hdescribe;
      [|discriminate].
    destruct (all_results (map (fun s => result (getServiceState s) env) services))
      as [states |] eqn:Hstates; [|discriminate].
    injection Hcluster as <-.
    exists services. cbn [EcsClusterState.arn EcsClusterState.services].
    split; [exact Hdescribe|].
    now apply captured_services_are_put_back.
Qed.

Lemma captured_state_is_put_back
    (env : Env) (subListr : Listr.t) (dryRun : bool)
    (state : StopFargateEcsServicesState) (listr : Listr.t) :
  accepts_mutations env ->
  result (conserve subListr dryRun) env = Ok (state, listr) ->
  result listClusters env = Ok (map EcsClusterState.arn state) /\
  Forall (putBack env) state.
Proof.
  intros Henv. rewrite result_conserve.
  destruct (result listClusters env) as [clustersArn |]; [|discriminate].
  rewrite result_getCurrentState.
  destruct (all_results _) as [current |] eqn:Hcurrent; [|discriminate].
  intros H. injection H as <- _.
  split.
  - f_equal. symmetry. now apply (cluster_states_complete env clustersArn).
  - now apply (captured_clusters_are_put_back env clustersArn).
Qed.

(** The mutating requests that put one described service of the cluster
    [cluster] back as the provider described it: for its 'Desired count'
    leaf the update to the described count (nothing when the count is zero
    or below), for its 'Auto scaling' leaf one registration per described
    scalable target, with the described dimension and capacities. *)
Definition requestsFor (env : Env) (cluster : string) (described : Service)
    : list (list Call) :=
  let service := Js.narrowed (serviceArn described) in
  [ match desiredCount described with
    | Some desired =>
        if desired >? 0 then [UpdateService cluster service desired] else []
    | None => []
    end;
    match env (DescribeScalableTargets "ecs"
                 [getEcsServiceResourceId (Js.narrowed (clusterArn described)) service]
                 "ecs:service:DesiredCount") with
    | Ok response =>
        map (fun target =>
               RegisterScalableTarget "ecs"
                 (getEcsServiceResourceId cluster service)
                 (ScalableDimension target)
                 (MinCapacity target) (MaxCapacity target))
            (Js.or_empty response)
    | Rejected _ => []
    end ].

(** The services that [describeAllServices] obtains for a cluster. *)
Definition describedIn (env : Env) (cluster : string) : list Service :=
  match result (describeAllServices cluster) env with
  | Ok services => services
  | Rejected _ => []
  end.

(** Leaf after leaf, what puts back everything that is described for the
    given clusters. *)
Definition requestsToPutBack (env : Env) (clusters : list string)
    : list (list Call) :=
  flat_map (fun cluster => flat_map (requestsFor env cluster) (describedIn env cluster))
           clusters.

(** Leaf after leaf, the mutating requests that the leaves of a list of
    tasks dispatch against [env]. *)
Definition mutationsPerLeaf (env : Env) (tasks : list Listr.Task) : list (list Call) :=
  map (fun leaf => mutations (trace (Listr.leaf_task leaf) env)) (Listr.leaves tasks).

Lemma mutationsPerLeaf_app env tasks tasks' :
  mutationsPerLeaf env (tasks ++ tasks') =
  mutationsPerLeaf env tasks ++ mutationsPerLeaf env tasks'.
Proof.
  unfold mutationsPerLeaf, Listr.leaves. now rewrite flat_map_app, map_app.
Qed.

Lemma restored_services_match env cluster services entries :
  Forall2 (putsBack env cluster) services entries ->
  mutationsPerLeaf env (map (restoreTask false cluster) entries) =
  flat_map (requestsFor env (EcsClusterState.arn cluster)) services.
Proof.
  induction 1 as [| described entry services entries Hput _ IH]; [reflexivity|].
  cbn [map flat_map].
  change (restoreTask false cluster entry :: map (restoreTask false cluster) entries)
    with ([restoreTask false cluster entry] ++ map (restoreTask false cluster) entries).
  rewrite mutationsPerLeaf_app, IH. f_equal.
  destruct Hput as (desired & response & Harn & Hdesired & Hresponse & Hupdate & Hregister).
  unfold mutationsPerLeaf, requestsFor.
  cbn [Listr.leaves flat_map Listr.subtasks restoreTask app map Listr.leaf_task].
  rewrite Hupdate, Hregister, Harn, Hdesired. cbn [Js.narrowed].
  now rewrite Hresponse.
Qed.

Lemma restored_state_matches env state :
  Forall (putBack env) state ->
  mutationsPerLeaf env (tasks (restoreTask false) state) =
  requestsToPutBack env (map EcsClusterState.arn state).
Proof.
  unfold tasks, requestsToPutBack.
  induction 1 as [| cluster rest (services & Hdescribed & Hput) _ IH]; [reflexivity|].
  cbn [map flat_map]. rewrite mutationsPerLeaf_app, IH. f_equal.
  unfold describedIn. rewrite Hdescribed.
  now apply restored_services_match.
Qed.

(** X5.  Round trip, for any number of clusters, services and targets.
    Whenever [conserve] resolves (with either value of [dryRun]) and the
    provider accepts the mutating requests, [restore] of the returned state
    with [dryRun] false resolves, and the leaves of the tasks it adds
    dispatch, leaf after leaf, exactly the requests that put back what was
    described: for each listed cluster and each service described for it,
    in order, the update to the described desired count (nothing when it
    was zero or below) and the registration of each described scalable
    target with its described dimension, minimum and maximum capacity. *)
Theorem restore_puts_back_what_conserve_described
    (env : Env) (subListr subListr' : Listr.t) (dryRun : bool)
    (state : StopFargateEcsServicesState) (listr : Listr.t) :
  accepts_mutations env ->
  result (conserve subListr dryRun) env = Ok (state, listr) ->
  exists added,
    result (restore subListr' false state) env = Ok (subListr' ++ added)
    /\ result listClusters env = Ok (map EcsClusterState.arn state)
    /\ mutationsPerLeaf env added =
       requestsToPutBack env (map EcsClusterState.arn state).
Proof.
  intros Henv Hconserve.
  destruct (captured_state_is_put_back env subListr dryRun state listr Henv Hconserve)
    as [Hlisted Hput].
  exists (tasks (restoreTask false) state).
  split; [|split; [exact Hlisted|]].
  - unfold restore, result. cbn. f_equal. apply addTasks_app.
  - now apply restored_state_matches.
Qed.

Lemma restore_puts_back_what_conserve_described_witness :
  let env := Sample.account [Sample.web 3; Sample.web 0]
                            [Sample.target 1 10; Sample.target 2 4] in
  let state :=
    [Sample.clusterState
       [Sample.serviceState 3 [Sample.capturedTarget 1 10; Sample.capturedTarget 2 4];
        Sample.serviceState 0 [Sample.capturedTarget 1 10; Sample.capturedTarget 2 4]]] in
  accepts_mutations env
  /\ result (conserve [] true) env =
     Ok (state, [] ++ tasks (conserveTask true) state)
  /\ exists added,
       result (restore [] false state) env = Ok ([] ++ added)
       /\ result listClusters env = Ok [Sample.clusterArn]
       /\ mutationsPerLeaf env added =
          [ [UpdateService Sample.clusterArn Sample.serviceArn 3];
            [RegisterScalableTarget "ecs" "service/main/web" Sample.dimension 1 10;
             RegisterScalableTarget "ecs" "service/main/web" Sample.dimension 2 4];
            [];
            [RegisterScalableTarget "ecs" "service/main/web" Sample.dimension 1 10;
             RegisterScalableTarget "ecs" "service/main/web" Sample.dimension 2 4] ].
Proof.
  cbv zeta. split; [apply account_accepts|]. split; [reflexivity|].
  exact (restore_puts_back_what_conserve_described
           (Sample.account [Sample.web 3; Sample.web 0]
                           [Sample.target 1 10; Sample.target 2 4])
           [] [] true _ _ (account_accepts _ _) eq_refl).
Defined.

End RoundTrip.

(* ===================================================================== *)
(** ** The requests of discovery *)
(* ===================================================================== *)

Module DiscoveryRequests.
Import StopFargateEcsServicesTrick AsyncFacts JsFacts.

(** What [conserve] itself may record: a dispatched list or describe
    request of one of these four shapes, and nothing else. *)
Definition discovers (e : Event) : Prop :=
  match e with
  | Request ListClusters => True
  | Request (ListServices _ launchType) => launchType = "FARGATE"
  | Request (DescribeServices services _) =>
      (1 <= List.length services <= 10)%nat
  | Request (DescribeScalableTargets ns ids dimension) =>
      ns = "ecs" /\ List.length ids = 1%nat /\ dimension = "ecs:service:DesiredCount"
  | _ => False
  end.

Lemma describeChunks_discovers clusterArn chunks :
  Forall (fun chunk => (1 <= List.length chunk <= 10)%nat) chunks ->
  forall result, every discovers (describeChunks clusterArn chunks result).
Proof.
  induction 1 as [| chunk rest Hchunk _ IH]; intros result; simpl.
  - apply every_ret.
  - apply every_bind; [now apply every_request | intros; apply IH].
Qed.

Lemma getServiceState_discovers service : every discovers (getServiceState service).
Proof.
  unfold getServiceState, describeAllScalableTargets.
  destruct (serviceArn service) as [arn |]; [|apply every_throw].
  destruct (desiredCount service) as [desired |]; [|apply every_throw].
  apply every_bind; [|intros; apply every_ret].
  repeat apply every_if; try apply every_throw.
  apply every_bind; [|intros; apply every_ret].
  apply every_request. repeat split.
Qed.

Lemma getClusterState_discovers clusterArn : every discovers (getClusterState clusterArn).
Proof.
  unfold getClusterState, describeAllServices, listServices.
  apply every_bind.
  - apply every_bind.
    + apply every_bind; [now apply every_request | intros; apply every_ret].
    + intros servicesArn. apply describeChunks_discovers, chunk_fuel_sizes.
  - intros services. apply every_bind; [|intros; apply every_ret].
    apply every_promise_all. intros p Hp.
    apply in_map_iff in Hp as (service & <- & _).
    apply getServiceState_discovers.
Qed.

(** X6.  The requests of discovery.  Whatever the provider answers,
    everything [conserve] itself records is a dispatched request of one of
    four shapes: list clusters; list services with launch type FARGATE;
    describe services for between one and ten ARNs; describe scalable
    targets in namespace 'ecs' for one resource identifier and the
    dimension 'ecs:service:DesiredCount'.  It writes no task output or skip
    and builds no update, registration or wait request: these belong to the
    tasks it adds. *)
Theorem conserve_sends_only_discovery_requests
    (subListr : Listr.t) (dryRun : bool) :
  every discovers (conserve subListr dryRun).
Proof.
  unfold conserve, listClusters.
  apply every_bind.
  - apply every_bind; [now apply every_request | intros; apply every_ret].
  - intros clustersArn. apply every_bind; [|intros; apply every_ret].
    apply every_promise_all. intros p Hp.
    apply in_map_iff in Hp as (clusterArn & <- & _).
    apply getClusterState_discovers.
Qed.

End DiscoveryRequests.

(* ===================================================================== *)
(** ** The tasks added to the list *)
(* ===================================================================== *)

Module TaskList.
Import StopFargateEcsServicesTrick AsyncFacts TaskFacts DiscoveryFacts.

(** The two leaves and the options of a task added for a service. *)
Definition wellFormed (task : Listr.Task) : Prop :=
  map Listr.leaf_title (Listr.subtasks task) =
    [Listr.Plain "Desired count"; Listr.Plain "Auto scaling"]
  /\ Listr.exitOnError (Listr.options task) = false
  /\ Listr.concurrent (Listr.options task) = true.

Definition titleOf (cluster : EcsClusterState.t) (service : EcsServiceState.t)
    : Listr.Title :=
  Listr.BlueBright
    (getEcsServiceResourceId (EcsClusterState.arn cluster) (EcsServiceState.arn service)).

Definition titlesOf (state : StopFargateEcsServicesState) : list Listr.Title :=
  flat_map (fun cluster => map (titleOf cluster) (EcsClusterState.services cluster)) state.

Definition servicesIn (state : StopFargateEcsServicesState) : nat :=
  list_sum (map (fun cluster => List.length (EcsClusterState.services cluster)) state).

(** One task per captured service, in the order of the state. *)
Definition onePerService (state : StopFargateEcsServicesState)
    (added : list Listr.Task) : Prop :=
  List.length added = servicesIn state
  /\ map Listr.title added = titlesOf state
  /\ Forall wellFormed added.

Lemma tasks_onePerService mk state :
  (forall cluster service,
      Listr.title (mk cluster service) = titleOf cluster service /\
      wellFormed (mk cluster service)) ->
  onePerService state (tasks mk state).
Proof.
  intros Hmk. unfold onePerService, tasks, servicesIn, titlesOf.
  induction state as [| cluster rest (IHn & IHt & IHw)]; [repeat split; constructor|].
  cbn [flat_map map list_sum].
  rewrite length_app, length_map, map_app, map_map, IHn, IHt.
  split; [reflexivity|]. split.
  - f_equal. apply map_ext. intros service. apply Hmk.
  - apply Forall_app. split; [|exact IHw].
    apply Forall_map, Forall_forall. intros service _. apply Hmk.
Qed.

(** X7.  The task list.  [restore] keeps the tasks that [subListr] already
    holds and appends one task per captured service, in the order of the
    state (clusters in order, services in order within each); so does
    [conserve] whenever it resolves, for the state it returns.  Each added
    task is titled with the resource identifier of its service and holds
    the leaves 'Desired count' and 'Auto scaling', with [exitOnError] false
    and [concurrent] true; a cluster without services adds nothing. *)
Theorem one_task_per_captured_service
    (env : Env) (subListr : Listr.t) (dryRun : bool)
    (captured : StopFargateEcsServicesState) :
  (exists added,
      result (restore subListr dryRun captured) env = Ok (subListr ++ added) /\
      onePerService captured added)
  /\ match result (conserve subListr dryRun) env with
     | Ok (state, listr) =>
         exists added, listr = subListr ++ added /\ onePerService state added
     | Rejected _ => True
     end.
Proof.
  split.
  - exists (tasks (restoreTask dryRun) captured). split.
    + unfold restore, result. cbn. f_equal. apply addTasks_app.
    + apply tasks_onePerService. intros cluster service. repeat split.
  - rewrite result_conserve.
    destruct (result listClusters env) as [clustersArn |]; [|exact I].
    destruct (result (getCurrentState clustersArn) env) as [state |]; [|exact I].
    exists (tasks (conserveTask dryRun) state). split; [reflexivity|].
    apply tasks_onePerService. intros cluster service. repeat split.
Qed.

End TaskList.

(* ===================================================================== *)
(** ** The captured resource identifier *)
(* ===================================================================== *)

Module CapturedIdentifier.
Import StopFargateEcsServicesTrick AsyncFacts TaskFacts.

(** A captured target with its [resourceId] replaced. *)
Definition withResourceId (rename : string -> string) (target : ScalableTargetState.t)
    : ScalableTargetState.t :=
  {| ScalableTargetState.namespace := ScalableTargetState.namespace target;
     ScalableTargetState.resourceId := rename (ScalableTargetState.resourceId target);
     ScalableTargetState.scalableDimension := ScalableTargetState.scalableDimension target;
     ScalableTargetState.min := ScalableTargetState.min target;
     ScalableTargetState.max := ScalableTargetState.max target |}.

Definition renamed (rename : string -> string) (service : EcsServiceState.t)
    : EcsServiceState.t :=
  {| EcsServiceState.arn := EcsServiceState.arn service;
     EcsServiceState.desired := EcsServiceState.desired service;
     EcsServiceState.scalableTargets :=
       option_map (map (withResourceId rename)) (EcsServiceState.scalableTargets service) |}.

Lemma for_of_map {A B : Type} (f : A -> B) (xs : list A) (body : B -> Async.t unit)
    (env : Env) :
  for_of (map f xs) body env = for_of xs (fun x => body (f x)) env.
Proof.
  induction xs as [| x rest IH]; [reflexivity|].
  cbn [map for_of bind Monad_Async]. unfold then_. now rewrite IH.
Qed.

Lemma noScalableTargets_renamed rename service :
  noScalableTargets (EcsServiceState.scalableTargets (renamed rename service)) =
  noScalableTargets (EcsServiceState.scalableTargets service).
Proof.
  unfold renamed, noScalableTargets. cbn [EcsServiceState.scalableTargets].
  destruct (EcsServiceState.scalableTargets service) as [l |]; [|reflexivity].
  cbn [option_map]. now rewrite length_map.
Qed.

Lemma or_empty_renamed rename service :
  Js.or_empty (EcsServiceState.scalableTargets (renamed rename service)) =
  map (withResourceId rename) (Js.or_empty (EcsServiceState.scalableTargets service)).
Proof.
  unfold renamed. cbn [EcsServiceState.scalableTargets].
  now destruct (EcsServiceState.scalableTargets service).
Qed.

(** X8.  The [resourceId] captured with a scalable target is never read
    back: replace it by anything in a state, and the four leaves record the
    same trace and end in the same result, whatever the provider answers.
    The identifier sent is always recomputed from the ARNs of the cluster
    and of the service. *)
Theorem captured_resource_id_is_not_read
    (env : Env) (dryRun : bool) (rename : string -> string)
    (cluster : EcsClusterState.t) (service : EcsServiceState.t) :
  conserveScalableTargets dryRun cluster (renamed rename service) env =
    conserveScalableTargets dryRun cluster service env
  /\ restoreScalableTargets dryRun cluster (renamed rename service) env =
     restoreScalableTargets dryRun cluster service env
  /\ conserveService dryRun cluster (renamed rename service) env =
     conserveService dryRun cluster service env
  /\ restoreService dryRun cluster (renamed rename service) env =
     restoreService dryRun cluster service env.
Proof.
  split; [|split; [|split; reflexivity]].
  - unfold conserveScalableTargets.
    rewrite noScalableTargets_renamed, or_empty_renamed.
    destruct (noScalableTargets _); [reflexivity|].
    destruct dryRun; [reflexivity|].
    now rewrite for_of_map.
  - unfold restoreScalableTargets.
    rewrite noScalableTargets_renamed, or_empty_renamed.
    destruct (noScalableTargets _); [reflexivity|].
    now rewrite for_of_map.
Qed.

End CapturedIdentifier.

(* ===================================================================== *)
(** ** Resource identifiers of ARNs *)
(* ===================================================================== *)

Module ArnFacts.
Import StopFargateEcsServicesTrick ResourceId.

Lemma has_slash_app (a b : string) :
  has_slash (a ++ b) = has_slash a || has_slash b.
Proof.
  induction a as [| c a IH]; [reflexivity|].
  simpl. now rewrite IH, orb_assoc.
Qed.

Lemma last_segment_after_slash (before name : string) :
  has_slash name = false ->
  last_segment (before ++ "/" ++ name) = name.
Proof.
  intros Hname. induction before as [| c before IH].
  - simpl. now rewrite Hname.
  - assert (Hrest : has_slash (before ++ String "/" name) = true).
    { rewrite has_slash_app. apply orb_true_iff. now right. }
    cbn [String.append last_segment]. rewrite Hrest. exact IH.
Qed.

Lemma split_first_segment (first rest : string) :
  has_slash first = false ->
  Js.split "/" (first ++ String "/" rest) = first :: Js.split "/" rest.
Proof.
  induction first as [| c first IH]; intros Hfirst.
  - reflexivity.
  - simpl in Hfirst. apply orb_false_iff in Hfirst as [Hc Hfirst].
    cbn [String.append Js.split]. rewrite Hc, (IH Hfirst). reflexivity.
Qed.

(** X13.  The identifier of a service given by ARNs.  When the cluster ARN
    ends in '/' and a name and the service ARN ends in '/' and a name,
    neither name holding a '/', the identifier is 'service/', the cluster
    name, '/', the service name, whatever precedes the names (so both the
    short and the long form of a service ARN give the same identifier); an
    ARN that ends in '/' gives an empty name.  Plain names without any '/'
    are taken as they are. *)
Theorem resource_id_of_arns
    (clusterPath servicePath clusterName serviceName : string) :
  has_slash clusterName = false ->
  has_slash serviceName = false ->
  getEcsServiceResourceId (clusterPath ++ "/" ++ clusterName)
                          (servicePath ++ "/" ++ serviceName) =
    ("service/" ++ clusterName ++ "/" ++ serviceName)%string
  /\ getEcsServiceResourceId clusterName serviceName =
     ("service/" ++ clusterName ++ "/" ++ serviceName)%string.
Proof.
  intros Hcluster Hservice. rewrite !resource_id_segments.
  rewrite !last_segment_after_slash by assumption.
  now rewrite !last_segment_without_slash by assumption.
Qed.

Lemma resource_id_of_arns_witness :
  has_slash "main" = false
  /\ has_slash "web" = false
  /\ getEcsServiceResourceId "arn:aws:ecs:eu-west-1:123456789012:cluster/main"
                             "arn:aws:ecs:eu-west-1:123456789012:service/main/web" =
     "service/main/web"
  /\ getEcsServiceResourceId "main" "web" = "service/main/web".
Proof.
  split; [reflexivity|]. split; [reflexivity|].
  exact (resource_id_of_arns
           "arn:aws:ecs:eu-west-1:123456789012:cluster"
           "arn:aws:ecs:eu-west-1:123456789012:service/main"
           "main" "web" eq_refl eq_refl).
Defined.

(** X14.  The identifier always has three segments.  For every pair of
    strings, splitting the identifier at '/' gives exactly 'service', the
    last segment of the cluster ARN and the last segment of the service
    ARN: no '/' of the ARNs gets into the identifier, and the identifier of
    an identifier's last two segments is the identifier itself. *)
Theorem resource_id_has_three_segments (clusterArn serviceArn : string) :
  Js.split "/" (getEcsServiceResourceId clusterArn serviceArn) =
    ["service"; last_segment clusterArn; last_segment serviceArn]
  /\ getEcsServiceResourceId (last_segment clusterArn) (last_segment serviceArn) =
     getEcsServiceResourceId clusterArn serviceArn
  /\ last_segment (getEcsServiceResourceId clusterArn serviceArn) =
     last_segment serviceArn.
Proof.
  rewrite !resource_id_segments.
  pose proof (last_segment_has_no_slash clusterArn) as Hcluster.
  pose proof (last_segment_has_no_slash serviceArn) as Hservice.
  split; [|split].
  - change ("service/" ++ last_segment clusterArn ++ "/" ++ last_segment serviceArn)%string
      with ("service" ++ String "/"
              (last_segment clusterArn ++ String "/" (last_segment serviceArn)))%string.
    rewrite split_first_segment by reflexivity.
    rewrite split_first_segment by assumption.
    now rewrite split_without_slash by assumption.
  - now rewrite (last_segment_without_slash (last_segment clusterArn)),
               (last_segment_without_slash (last_segment serviceArn)) by assumption.
  - change ("service/" ++ last_segment clusterArn ++ "/" ++ last_segment serviceArn)%string
      with (("service/" ++ last_segment clusterArn) ++ "/" ++ last_segment serviceArn)%string.
    now apply last_segment_after_slash.
Qed.

End ArnFacts.

(* ===================================================================== *)
(** ** Rejections during discovery *)
(* ===================================================================== *)

Module DiscoveryErrors.
Import StopFargateEcsServicesTrick AsyncFacts DiscoveryFacts LoopFacts.

(** The three fields [getCurrentState] needs of a described service. *)
Definition fieldsPresent (service : Service) : bool :=
  negb (Js.falsy (serviceArn service))
  && match desiredCount service with Some _ => true | None => false end
  && negb (Js.falsy (clusterArn service)).

Definition thrown {A : Type} (r : Result A) : bool :=
  match r with
  | Rejected (JsError _) => true
  | _ => false
  end.

(** X15.  Validation comes before the request.  For one described service
    [getCurrentState] sends at most one request, the one that describes its
    scalable targets, and sends it exactly when the service carries a
    non-empty [serviceArn], a [desiredCount] and a non-empty [clusterArn];
    otherwise it throws an [Error] without having sent anything.  An empty
    string counts as missing for the two ARNs. *)
Theorem fields_are_checked_before_describing (env : Env) (service : Service) :
  dispatched (trace (getServiceState service) env) =
    (if fieldsPresent service
     then [DescribeScalableTargets "ecs"
             [getEcsServiceResourceId (Js.narrowed (clusterArn service))
                                      (Js.narrowed (serviceArn service))]
             "ecs:service:DesiredCount"]
     else [])
  /\ (if fieldsPresent service then true
      else thrown (result (getServiceState service) env)) = true.
Proof.
  unfold getServiceState, describeAllScalableTargets, fieldsPresent, trace, result.
  destruct (serviceArn service) as [arn |]; [|split; reflexivity].
  destruct (desiredCount service) as [desired |].
  2:{ cbn [negb andb]. rewrite andb_false_r. split; reflexivity. }
  destruct (Js.falsy (clusterArn service)).
  { cbn [negb]. rewrite andb_false_r. split; reflexivity. }
  destruct (Js.falsy (Some arn)); [split; reflexivity|].
  cbn [negb andb bind ret Monad_Async]. unfold then_, request. cbn [Js.narrowed].
  destruct (env _); split; reflexivity.
Qed.

Lemma describeChunks_until_rejected env clusterArn chunks :
  forall result,
    dispatched (trace (describeChunks clusterArn chunks result) env) =
      until_rejected env (map (fun chunk => DescribeServices chunk clusterArn) chunks)
    /\ is_ok (Async.result (describeChunks clusterArn chunks result) env) =
       all_accepted env (map (fun chunk => DescribeServices chunk clusterArn) chunks).
Proof.
  induction chunks as [| chunk rest IH]; intros result; [split; reflexivity|].
  cbn [describeChunks]. rewrite trace_bind, result_bind, dispatched_app.
  cbn [map until_rejected all_accepted forallb].
  fold (all_accepted env (map (fun chunk => DescribeServices chunk clusterArn) rest)).
  change (Async.result (request (DescribeServices chunk clusterArn)) env)
    with (env (DescribeServices chunk clusterArn)).
  change (dispatched (trace (request (DescribeServices chunk clusterArn)) env))
    with [DescribeServices chunk clusterArn].
  destruct (env (DescribeServices chunk clusterArn)) as [response | e];
    cbn [is_ok andb app].
  - destruct (IH (result ++ Js.or_empty response)) as [IHd IHr].
    rewrite IHd, IHr. split; reflexivity.
  - split; reflexivity.
Qed.

(** X16.  A rejection stops the describing of a cluster.  When the list
    request is rejected nothing else is sent for the cluster.  Otherwise
    the describe requests are sent chunk after chunk up to and including
    the first one the provider rejects, and the services of the cluster
    are obtained exactly when every chunk is answered: what was described
    before a rejection is discarded. *)
Theorem describing_stops_at_first_rejection (env : Env) (clusterArn : string) :
  let requests :=
    match env (ListServices clusterArn "FARGATE") with
    | Ok response =>
        map (fun chunk => DescribeServices chunk clusterArn)
            (Js.chunk (Js.or_empty response) 10)
    | Rejected _ => []
    end in
  dispatched (trace (describeAllServices clusterArn) env) =
    ListServices clusterArn "FARGATE" :: until_rejected env requests
  /\ is_ok (result (describeAllServices clusterArn) env) =
     is_ok (env (ListServices clusterArn "FARGATE")) && all_accepted env requests.
Proof.
  cbv zeta. unfold describeAllServices, listServices.
  rewrite trace_bind, !result_bind, dispatched_app.
  rewrite trace_bind, dispatched_app.
  change (result (request (ListServices clusterArn "FARGATE")) env)
    with (env (ListServices clusterArn "FARGATE")).
  change (dispatched (trace (request (ListServices clusterArn "FARGATE")) env))
    with [ListServices clusterArn "FARGATE"].
  destruct (env (ListServices clusterArn "FARGATE")) as [response | e].
  - cbn [is_ok andb]. change (result (ret (Js.or_empty response)) env)
      with (@Ok (list string) (Js.or_empty response)).
    change (trace (ret (Js.or_empty response)) env) with (@nil Step).
    cbv beta iota.
    destruct (describeChunks_until_rejected env clusterArn
                (Js.chunk (Js.or_empty response) 10) []) as [Hd Hr].
    rewrite Hd, Hr. split; reflexivity.
  - split; reflexivity.
Qed.

End DiscoveryErrors.
